(** * CAIRO recommendation tools: request models, HTTP adapter, capability
      functions, structured tools and the tool-policy gate.

    Shallow embedding of [src/reccomendation.py] (and of the call
    [guard_tools(tools)] of [src/agent.py]).  Python values are an inductive
    type, a Python [float] is an IEEE 754 binary64 number ([spec_float]), the
    outbound network is a transport function together with the list of the
    calls made to [client.post], and exceptions are the left summand of the
    result. *)

From Stdlib Require Import ZArith List String Ascii Bool Lia.
From Stdlib Require Import Floats.SpecFloat.
Import ListNotations.

Local Open Scope string_scope.
Local Open Scope Z_scope.

Set Warnings "-register-all".

(* ===================================================================== *)
(** * Python values *)
(* ===================================================================== *)

(** A Python [float]: binary64. *)
Definition float := spec_float.

Definition prec : Z := 53.
Definition emax : Z := 1024.

(** The literals [0.0], [1.0], [3.0] and [10.0] in canonical form. *)
Definition float_zero : float := S754_zero false.
Definition float_one : float := S754_finite false 4503599627370496 (-52).
Definition float_three : float := S754_finite false 6755399441055744 (-51).
Definition float_ten : float := S754_finite false 5629499534213120 (-49).

(** The values a tool call or a JSON document can carry.  A dict is kept as
    the list of its items in insertion order; keys are strings. *)
Inductive pyval : Type :=
| PyNone
| PyBool (b : bool)
| PyInt (z : Z)
| PyFloat (f : float)
| PyStr (s : string)
| PyList (l : list pyval)
| PyDict (d : list (string * pyval)).

(** A Python dict holds a key once: the lists that stand for dicts are the
    ones whose keys are pairwise distinct. *)
Definition dict := list (string * pyval).

(** [d.get(k)] *)
Fixpoint lookup (k : string) (d : dict) : option pyval :=
  match d with
  | [] => None
  | (k', v) :: d' => if String.eqb k k' then Some v else lookup k d'
  end.

(** [list(d.keys())] *)
Definition keys (d : dict) : list string := map fst d.

(** [k in d] *)
Definition has_key (k : string) (d : dict) : bool :=
  existsb (String.eqb k) (keys d).

(** The lists that are dicts: no key twice. *)
Definition is_dict (d : dict) : Prop := NoDup (keys d).

(** [math.isfinite] *)
Definition is_finite (f : float) : bool :=
  match f with
  | S754_zero _ | S754_finite _ _ _ => true
  | S754_infinity _ | S754_nan => false
  end.

(** What [json.dumps(v, allow_nan=False)] encodes: every value but those
    that hold, at any depth, a float that is infinite or NaN. *)
Fixpoint json_compliant (v : pyval) : bool :=
  match v with
  | PyFloat f => is_finite f
  | PyList l => forallb json_compliant l
  | PyDict d => forallb (fun kv => json_compliant (snd kv)) d
  | PyNone | PyBool _ | PyInt _ | PyStr _ => true
  end.

(* ===================================================================== *)
(** * Exceptions and the call monad *)
(* ===================================================================== *)

Inductive exn : Type :=
| ValidationError                              (* pydantic *)
| TypeError                                    (* bad call of a function *)
| TransportError                               (* httpx: timeout, network *)
| HTTPStatusError (status : Z) (body : string) (* httpx: raise_for_status *)
| JSONDecodeError                              (* r.json() *)
| ValueError                                   (* json.dumps of the payload *)
| ConfigurationError.                          (* policy gate *)

(** What [client.post(url, json=..., headers=...)] is called with, inside a
    client built with [timeout=30]. *)
Record Request : Type := mkRequest {
  req_url : string;
  req_json : pyval;
  req_headers : list (string * string);
  req_timeout : Z
}.

Record Response : Type := mkResponse {
  status_code : Z;
  text : string
}.

(** A computation that may call the network: it extends the list of the
    calls of [client.post] made so far and ends in a value or in an
    exception.  The list is kept when an exception is raised. *)
Definition IO (A : Type) : Type := list Request -> list Request * (exn + A).

Definition ret {A} (a : A) : IO A := fun sent => (sent, inr a).

Definition raise {A} (e : exn) : IO A := fun sent => (sent, inl e).

Definition bind {A B} (m : IO A) (k : A -> IO B) : IO B :=
  fun sent =>
    match m sent with
    | (sent', inr a) => k a sent'
    | (sent', inl e) => (sent', inl e)
    end.

Declare Scope io_scope.
Delimit Scope io_scope with io.
Notation "x <- m ;; k" := (bind m (fun x => k))
  (at level 100, m at next level, right associativity) : io_scope.
Notation "m ;;; k" := (bind m (fun _ => k))
  (at level 100, right associativity) : io_scope.
Local Open Scope io_scope.

(** The requests a computation sends when started with none sent. *)
Definition sent_by {A} (m : IO A) : list Request := fst (m []).

(** The outcome of a computation started with none sent. *)
Definition outcome {A} (m : IO A) : exn + A := snd (m []).

(* ===================================================================== *)
(** * Configuration ([..config.settings]) *)
(* ===================================================================== *)

Record Settings : Type := mkSettings {
  rec_engine_url : string;
  rec_api_key : option string
}.

(** Truth value of [settings.rec_api_key]: [None] and [""] are false. *)
Definition truthy (k : option string) : bool :=
  match k with
  | Some (String _ _) => true
  | _ => false
  end.

(** [s.rstrip(c)] for a one-character argument: every trailing [c] goes. *)
Fixpoint rstrip (c : ascii) (s : string) : string :=
  match s with
  | EmptyString => EmptyString
  | String a s' =>
      match rstrip c s' with
      | EmptyString => if Ascii.eqb a c then EmptyString else String a EmptyString
      | r => String a r
      end
  end.

Definition slash : ascii := "/"%char.

(** [s.endswith("/")] *)
Fixpoint ends_with_slash (s : string) : bool :=
  match s with
  | EmptyString => false
  | String a EmptyString => Ascii.eqb a slash
  | String _ s' => ends_with_slash s'
  end.

(** ["/" * n] *)
Fixpoint slashes (n : nat) : string :=
  match n with
  | O => EmptyString
  | S n' => String slash (slashes n')
  end.

(* ===================================================================== *)
(** * The HTTP adapter and the capability functions *)
(* ===================================================================== *)

(** [Response.is_success] *)
Definition is_success (r : Response) : bool :=
  (200 <=? status_code r) && (status_code r <=? 299).

Section Adapter.

(** Process-wide configuration, read at call time. *)
Variable settings : Settings.

(** The network: the response to a request, or [None] when the transport
    fails (time-out, connection error). *)
Variable transport : Request -> option Response.

(** The JSON decoder behind [r.json()]: [None] when the body is not JSON. *)
Variable json_loads : string -> option pyval.

(** [client.post(...)]: the call is recorded; the payload is encoded, which
    raises [ValueError] on a NaN or an infinity, before the transport is
    reached; then the transport answers. *)
Definition client_post (rq : Request) : IO Response :=
  fun sent =>
    ((sent ++ [rq])%list,
     if json_compliant (req_json rq) then
       match transport rq with
       | Some r => inr r
       | None => inl TransportError
       end
     else inl ValueError).

(** [r.raise_for_status()] *)
Definition raise_for_status (r : Response) : IO unit :=
  if is_success r then ret tt
  else raise (HTTPStatusError (status_code r) (text r)).

(** [r.json()] *)
Definition response_json (r : Response) : IO pyval :=
  match json_loads (text r) with
  | Some v => ret v
  | None => raise JSONDecodeError
  end.

Definition auth_headers : list (string * string) :=
  if truthy (rec_api_key settings) then
    match rec_api_key settings with
    | Some k => [("Authorization", "Bearer " ++ k)]
    | None => []
    end
  else [].

Definition _post (path : string) (payload : dict) : IO pyval :=
  let base := rstrip slash (rec_engine_url settings) in
  let headers := auth_headers in
  r <- client_post (mkRequest (base ++ path) (PyDict payload) headers 30) ;;
  raise_for_status r ;;;
  response_json r.

(** ** Control functions.  Python checks no annotation at run time: the
    arguments are arbitrary values. *)

Definition set_recommendation_weights (weights : pyval) : IO pyval :=
  _post "/api/control/set_weights" [("weights", weights)].

Definition boost_creator (creator_id factor : pyval) : IO pyval :=
  _post "/api/control/boost_creator"
        [("creator_id", creator_id); ("factor", factor)].

Definition demote_creator (creator_id factor : pyval) : IO pyval :=
  _post "/api/control/demote_creator"
        [("creator_id", creator_id); ("factor", factor)].

Definition block_tag (tag : pyval) : IO pyval :=
  _post "/api/control/block_tag" [("tag", tag)].

Definition unblock_tag (tag : pyval) : IO pyval :=
  _post "/api/control/unblock_tag" [("tag", tag)].

(** ** Content discovery functions *)

Definition search_content (query limit : pyval) : IO pyval :=
  _post "/api/search/content" [("query", query); ("limit", limit)].

Definition trending_content (category limit : pyval) : IO pyval :=
  _post "/api/content/trending" [("category", category); ("limit", limit)].

Definition personalized_feed (user_id limit : pyval) : IO pyval :=
  _post "/api/content/personalized_feed"
        [("user_id", user_id); ("limit", limit)].

End Adapter.

(* ===================================================================== *)
(** * Request models (pydantic) *)
(* ===================================================================== *)

(** The annotations the request models use. *)
Inductive annot : Type :=
| TStr                     (* str *)
| TInt                     (* int *)
| TFloat                   (* float *)
| TDictStr (v : annot).    (* Dict[str, v] *)

(** [Field(default=..., ge=..., le=..., description=...)]; a field with no
    default is required. *)
Record FieldInfo : Type := mkField {
  fdefault : option pyval;
  fge : option float;
  fle : option float;
  fdescription : string
}.

(** A model class: its fields in declaration order. *)
Definition schema := list (string * annot * FieldInfo).

Definition SetWeightsInput : schema :=
  [("weights", TDictStr TFloat,
    mkField None None None
      "Feature weights, e.g. {'freshness':0.4,'similarity':0.3,'novelty':0.3}")].

Definition BoostCreatorInput : schema :=
  [("creator_id", TStr, mkField None None None "Creator/user ID to boost");
   ("factor", TFloat,
    mkField None (Some float_zero) (Some float_ten)
      "Boost factor, 0 disables, 1 no change, >1 boosts")].

Definition DemoteCreatorInput : schema :=
  [("creator_id", TStr, mkField None None None "Creator/user ID to demote");
   ("factor", TFloat,
    mkField None (Some float_zero) (Some float_ten)
      "Demotion factor, 0 disables, 1 no change, >1 demotes")].

Definition BlockTagInput : schema :=
  [("tag", TStr, mkField None None None "Content tag/category to block")].

Definition UnblockTagInput : schema :=
  [("tag", TStr, mkField None None None "Content tag/category to unblock")].

Definition SearchContentInput : schema :=
  [("query", TStr,
    mkField None None None "Search query string (keywords, hashtags, etc.)");
   ("limit", TInt,
    mkField (Some (PyInt 10)) None None "Maximum number of results to return")].

Definition TrendingContentInput : schema :=
  [("category", TStr,
    mkField (Some (PyStr "all")) None None
      "Category to fetch trending content from");
   ("limit", TInt,
    mkField (Some (PyInt 10)) None None
      "Maximum number of trending posts to return")].

Definition PersonalizedFeedInput : schema :=
  [("user_id", TStr,
    mkField None None None "User ID for whom to generate the feed");
   ("limit", TInt,
    mkField (Some (PyInt 10)) None None "Maximum number of posts to return")].

Definition request_models : list schema :=
  [SetWeightsInput; BoostCreatorInput; DemoteCreatorInput; BlockTagInput;
   UnblockTagInput; SearchContentInput; TrendingContentInput;
   PersonalizedFeedInput].

(** ** Validation (pydantic 2, lax mode, Python input) *)

(** [float(z)]: the nearest binary64, an error when [z] is too large. *)
Definition int_to_float (z : Z) : option float :=
  match binary_normalize prec emax z 0 false with
  | S754_infinity _ => None
  | S754_nan => None
  | f => Some f
  end.

(** A float with no fractional part as an integer; the integer has to lie
    strictly between -2^63 and 2^63. *)
Definition float_to_int (f : float) : option Z :=
  match f with
  | S754_zero _ => Some 0
  | S754_finite s m e =>
      let sign := if s then (-1) else 1 in
      let whole :=
        if 0 <=? e then Some (sign * (Z.pos m * 2 ^ e))
        else if Z.pos m mod 2 ^ (- e) =? 0
             then Some (sign * (Z.pos m / 2 ^ (- e)))
             else None in
      match whole with
      | Some z => if (- 2 ^ 63 <? z) && (z <? 2 ^ 63) then Some z else None
      | None => None
      end
  | S754_infinity _ => None
  | S754_nan => None
  end.

(** A dict comprehension whose value expression can fail. *)
Fixpoint map_items (f : pyval -> option pyval) (d : dict) : option dict :=
  match d with
  | [] => Some []
  | (k, v) :: d' =>
      match f v, map_items f d' with
      | Some v', Some r => Some ((k, v') :: r)
      | _, _ => None
      end
  end.

Section Pydantic.

(** The conversions of a string to a number that lax mode allows; which
    strings convert is the library's business. *)
Variable float_of_str : string -> option float.
Variable int_of_str : string -> option Z.

Definition str_validator (v : pyval) : option string :=
  match v with
  | PyStr s => Some s
  | _ => None
  end.

Definition int_validator (v : pyval) : option Z :=
  match v with
  | PyInt z => Some z
  | PyBool b => Some (if b then 1 else 0)
  | PyFloat f => float_to_int f
  | PyStr s => int_of_str s
  | _ => None
  end.

Definition float_validator (v : pyval) : option float :=
  match v with
  | PyFloat f => Some f
  | PyInt z => int_to_float z
  | PyBool b => Some (if b then float_one else float_zero)
  | PyStr s => float_of_str s
  | _ => None
  end.

(** The bound checks of a constrained float: the value has to be at most
    [le] and at least [ge].  A NaN is at most and at least nothing, so a
    bound refuses it; without bounds, infinities and NaN pass
    ([allow_inf_nan] is left at its default). *)
Definition within_bounds (info : FieldInfo) (f : float) : bool :=
  (match fle info with Some b => SFleb f b | None => true end)
  && (match fge info with Some b => SFleb b f | None => true end).

Fixpoint validate_annot (a : annot) (v : pyval) : option pyval :=
  match a with
  | TStr => option_map PyStr (str_validator v)
  | TInt => option_map PyInt (int_validator v)
  | TFloat => option_map PyFloat (float_validator v)
  | TDictStr a' =>
      match v with
      | PyDict d => option_map PyDict (map_items (validate_annot a') d)
      | _ => None
      end
  end.

(** One field: the annotation's validator, then the bounds of the field. *)
Definition validate_field (a : annot) (info : FieldInfo) (v : pyval)
  : option pyval :=
  match validate_annot a v with
  | Some (PyFloat f) =>
      if within_bounds info f then Some (PyFloat f) else None
  | r => r
  end.

(** [Model.model_validate(d)]: every field in declaration order, the
    default for an absent one; keys that name no field are ignored.
    [None] stands for [ValidationError]. *)
Fixpoint model_validate (s : schema) (input : dict) : option dict :=
  match s with
  | [] => Some []
  | (name, a, info) :: s' =>
      let r := match lookup name input with
               | Some v => validate_field a info v
               | None => fdefault info
               end in
      match r, model_validate s' input with
      | Some v, Some m => Some ((name, v) :: m)
      | _, _ => None
      end
  end.

End Pydantic.

(* ===================================================================== *)
(** * Structured tools (langchain_core) *)
(* ===================================================================== *)

(** A Python function: its parameters with their defaults, and its body on
    the bound arguments. *)
Record PyFunc : Type := mkFunc {
  params : list (string * option pyval);
  body : list pyval -> IO pyval
}.

(** Binding of keyword arguments: the keyword's value, else the default. *)
Fixpoint bind_params (ps : list (string * option pyval)) (kwargs : dict)
  : option (list pyval) :=
  match ps with
  | [] => Some []
  | (p, d) :: ps' =>
      let a := match lookup p kwargs with
               | Some v => Some v
               | None => d
               end in
      match a, bind_params ps' kwargs with
      | Some v, Some vs => Some (v :: vs)
      | _, _ => None
      end
  end.

(** The call of [f] with the keyword arguments [kwargs]. *)
Definition call (f : PyFunc) (kwargs : dict) : IO pyval :=
  if forallb (fun k => existsb (String.eqb k) (map fst (params f)))
             (keys kwargs)
  then match bind_params (params f) kwargs with
       | Some args => body f args
       | None => raise TypeError
       end
  else raise TypeError.

Record StructuredTool : Type := mkTool {
  name : string;
  description : string;
  func : PyFunc;
  args_schema : schema
}.

Section Tools.

Variable settings : Settings.
Variable transport : Request -> option Response.
Variable json_loads : string -> option pyval.
Variable float_of_str : string -> option float.
Variable int_of_str : string -> option Z.

(** ** The capability functions as function objects, with the defaults of
    their [def] lines. *)

Definition set_recommendation_weights_fn : PyFunc :=
  mkFunc [("weights", None)]
    (fun args =>
       match args with
       | [weights] =>
           set_recommendation_weights settings transport json_loads weights
       | _ => raise TypeError
       end).

Definition boost_creator_fn : PyFunc :=
  mkFunc [("creator_id", None); ("factor", None)]
    (fun args =>
       match args with
       | [creator_id; factor] =>
           boost_creator settings transport json_loads creator_id factor
       | _ => raise TypeError
       end).

Definition demote_creator_fn : PyFunc :=
  mkFunc [("creator_id", None); ("factor", None)]
    (fun args =>
       match args with
       | [creator_id; factor] =>
           demote_creator settings transport json_loads creator_id factor
       | _ => raise TypeError
       end).

Definition block_tag_fn : PyFunc :=
  mkFunc [("tag", None)]
    (fun args =>
       match args with
       | [tag] => block_tag settings transport json_loads tag
       | _ => raise TypeError
       end).

Definition unblock_tag_fn : PyFunc :=
  mkFunc [("tag", None)]
    (fun args =>
       match args with
       | [tag] => unblock_tag settings transport json_loads tag
       | _ => raise TypeError
       end).

Definition search_content_fn : PyFunc :=
  mkFunc [("query", None); ("limit", Some (PyInt 10))]
    (fun args =>
       match args with
       | [query; limit] =>
           search_content settings transport json_loads query limit
       | _ => raise TypeError
       end).

Definition trending_content_fn : PyFunc :=
  mkFunc [("category", Some (PyStr "all")); ("limit", Some (PyInt 10))]
    (fun args =>
       match args with
       | [category; limit] =>
           trending_content settings transport json_loads category limit
       | _ => raise TypeError
       end).

Definition personalized_feed_fn : PyFunc :=
  mkFunc [("user_id", None); ("limit", Some (PyInt 10))]
    (fun args =>
       match args with
       | [user_id; limit] =>
           personalized_feed settings transport json_loads user_id limit
       | _ => raise TypeError
       end).

Definition capability_functions : list PyFunc :=
  [set_recommendation_weights_fn; boost_creator_fn; demote_creator_fn;
   block_tag_fn; unblock_tag_fn; search_content_fn; trending_content_fn;
   personalized_feed_fn].

(** ** Structured tools *)

Definition set_weights_tool : StructuredTool :=
  mkTool "set_recommendation_weights"
    "Control the recommendation engine feature weights"
    set_recommendation_weights_fn SetWeightsInput.

Definition boost_creator_tool : StructuredTool :=
  mkTool "boost_creator"
    "Temporarily boost a creator's content in recommendations"
    boost_creator_fn BoostCreatorInput.

Definition demote_creator_tool : StructuredTool :=
  mkTool "demote_creator"
    "Temporarily demote a creator's content in recommendations"
    demote_creator_fn DemoteCreatorInput.

Definition block_tag_tool : StructuredTool :=
  mkTool "block_tag"
    "Block a content tag/category from recommendations"
    block_tag_fn BlockTagInput.

Definition unblock_tag_tool : StructuredTool :=
  mkTool "unblock_tag"
    "Unblock a content tag/category in recommendations"
    unblock_tag_fn UnblockTagInput.

Definition search_content_tool : StructuredTool :=
  mkTool "search_content"
    "Search content by keywords or hashtags"
    search_content_fn SearchContentInput.

Definition trending_content_tool : StructuredTool :=
  mkTool "trending_content"
    "Fetch top trending posts for a category"
    trending_content_fn TrendingContentInput.

Definition personalized_feed_tool : StructuredTool :=
  mkTool "personalized_feed"
    "Generate a personalized feed for a specific user based on engagement history"
    personalized_feed_fn PersonalizedFeedInput.

(** The tools handed to [DeepAgent(tools=[...])]. *)
Definition deep_agent_tools : list StructuredTool :=
  [set_weights_tool; boost_creator_tool; demote_creator_tool;
   block_tag_tool; unblock_tag_tool; search_content_tool;
   trending_content_tool; personalized_feed_tool].

(** ** Invocation of a tool with a dict of arguments *)

(** The input is validated against [args_schema]; the function then gets
    the validated value of every field that the input named (a field the
    input left out is left to the function's own default). *)
Definition parse_input (t : StructuredTool) (tool_input : dict)
  : exn + dict :=
  match model_validate float_of_str int_of_str (args_schema t) tool_input with
  | None => inl ValidationError
  | Some m => inr (filter (fun kv => has_key (fst kv) tool_input) m)
  end.

Definition run (t : StructuredTool) (tool_input : dict) : IO pyval :=
  match parse_input t tool_input with
  | inl e => raise e
  | inr kwargs => call (func t) kwargs
  end.

End Tools.

(* ===================================================================== *)
(** * The policy gate *)
(* ===================================================================== *)

(** Modelled from the spec: the DisallowedActionSet of the policy gate, whose
    module ([.policy]) is not among the sources; the substrings the spec
    lists. *)
Definition DisallowedActionSet : list string :=
  ["like"; "comment"; "auto_like"; "auto_comment"].

(** Modelled from the spec: the case folding of the case-insensitive match
    ([str.lower] on ASCII letters). *)
Definition lower_ascii (c : ascii) : ascii :=
  let n := nat_of_ascii c in
  if (Nat.leb 65 n && Nat.leb n 90)%bool then ascii_of_nat (n + 32) else c.

(** Modelled from the spec: the case folding of a whole name. *)
Fixpoint lower (s : string) : string :=
  match s with
  | EmptyString => EmptyString
  | String c s' => String (lower_ascii c) (lower s')
  end.

(** Modelled from the spec: the substring test of the match, [needle in hay]. *)
Fixpoint is_substring (needle hay : string) : bool :=
  String.prefix needle hay
  || match hay with
     | EmptyString => false
     | String _ hay' => is_substring needle hay'
     end.

(** Modelled from the spec: a descriptor matches when its name, case folded,
    contains a member of the DisallowedActionSet. *)
Definition is_disallowed (t : StructuredTool) : bool :=
  existsb (fun a => is_substring a (lower (name t))) DisallowedActionSet.

(** Modelled from the spec: the filtering pass of the gate; a matching
    descriptor is dropped, the others are kept in order. *)
Fixpoint guard_filter (tools : list StructuredTool) : list StructuredTool :=
  match tools with
  | [] => []
  | t :: tools' =>
      if is_disallowed t then guard_filter tools'
      else t :: guard_filter tools'
  end.

(** Modelled from the spec: [guard_tools] of [.policy], called by
    [build_cairo_agent] and absent from the sources.  It returns the
    filtered list, and raises ConfigurationError when that list is empty
    and the caller required at least one tool. *)
Definition guard_tools (tools : list StructuredTool) (require_tools : bool)
  : exn + list StructuredTool :=
  match guard_filter tools with
  | [] => if require_tools then inl ConfigurationError else inr []
  | kept => inr kept
  end.

(** A descriptor of which only the name matters. *)
Definition tool (n : string) : StructuredTool :=
  mkTool n "" (mkFunc [] (fun _ => ret PyNone)) [].

(* ===================================================================== *)
(** * A concrete world, for running the definitions *)
(* ===================================================================== *)

Module Example.

Definition settings : Settings := mkSettings "https://rec.example/" None.

(** A mock engine that answers every request with 200 and an empty object. *)
Definition transport_ok (_ : Request) : option Response :=
  Some (mkResponse 200 "{}").


(** A decoder that knows the empty object only. *)
Definition json_loads (s : string) : option pyval :=
  if String.eqb s "{}" then Some (PyDict []) else None.

(** Converters that turn no string into a number. *)
Definition float_of_str (_ : string) : option float := None.
Definition int_of_str (_ : string) : option Z := None.

Definition float_eleven : float := S754_finite false 6192449487634432 (-49).

End Example.

(* ===================================================================== *)
(** * Observations used in the statements *)
(* ===================================================================== *)

(** The URL prefix of every call: [settings.rec_engine_url.rstrip("/")]. *)
Definition base_url (st : Settings) : string :=
  rstrip slash (rec_engine_url st).

(** Where a computation posted what, from a start with nothing sent. *)
Definition posted {A} (m : IO A) : list (string * pyval) :=
  map (fun rq => (req_url rq, req_json rq)) (sent_by m).

(** The parameter a field stands for: same name, same default. *)
Definition field_param (fld : string * annot * FieldInfo)
  : string * option pyval :=
  (fst (fst fld), fdefault (snd fld)).

(** A tool whose schema lists the parameters of its function, in order and
    with the same defaults, no name twice. *)
Definition coherent (t : StructuredTool) : Prop :=
  map field_param (args_schema t) = params (func t)
  /\ NoDup (map fst (params (func t))).

(** How an item of a validated model arises from a field and the input:
    from the validated value of the input's item, or from the default. *)
Definition arises (float_of_str : string -> option float)
           (int_of_str : string -> option Z) (input : dict)
           (fld : string * annot * FieldInfo) (kv : string * pyval) : Prop :=
  fst kv = fst (fst fld)
  /\ match lookup (fst (fst fld)) input with
     | Some raw =>
         validate_field float_of_str int_of_str (snd (fst fld)) (snd fld) raw
         = Some (snd kv)
     | None => fdefault (snd fld) = Some (snd kv)
     end.

(** The mapping of the capabilities as the specification lists it: the
    tool, its fixed path, the keys of its payload. *)
Definition capability_mapping : list (string * (string * list string)) :=
  [("set_recommendation_weights", ("/api/control/set_weights", ["weights"]));
   ("boost_creator", ("/api/control/boost_creator", ["creator_id"; "factor"]));
   ("demote_creator", ("/api/control/demote_creator", ["creator_id"; "factor"]));
   ("block_tag", ("/api/control/block_tag", ["tag"]));
   ("unblock_tag", ("/api/control/unblock_tag", ["tag"]));
   ("search_content", ("/api/search/content", ["query"; "limit"]));
   ("trending_content", ("/api/content/trending", ["category"; "limit"]));
   ("personalized_feed",
    ("/api/content/personalized_feed", ["user_id"; "limit"]))].

(** The tools whose request model has a [limit]. *)
Definition limit_tools st tr jl : list StructuredTool :=
  [search_content_tool st tr jl; trending_content_tool st tr jl;
   personalized_feed_tool st tr jl].

(** The identifying string argument of each tool that has one. *)
Definition string_arguments st tr jl : list (StructuredTool * string) :=
  [(boost_creator_tool st tr jl, "creator_id");
   (demote_creator_tool st tr jl, "creator_id");
   (block_tag_tool st tr jl, "tag");
   (unblock_tag_tool st tr jl, "tag");
   (search_content_tool st tr jl, "query");
   (personalized_feed_tool st tr jl, "user_id")].

(** A value that stands for no number: [None], a list, a dict, or a string
    that the float parser refuses. *)
Definition non_numeric (float_of_str : string -> option float) (v : pyval)
  : Prop :=
  match v with
  | PyNone | PyList _ | PyDict _ => True
  | PyStr s => float_of_str s = None
  | PyBool _ | PyInt _ | PyFloat _ => False
  end.

(** The invariant the specification states for a weights mapping: every key
    is a non-empty string and every value a finite number. *)
Definition weights_invariant (d : dict) : bool :=
  forallb (fun kv =>
             negb (String.eqb (fst kv) "")
             && match snd kv with
                | PyFloat f => is_finite f
                | PyInt _ => true
                | _ => false
                end) d.

(** A dict of floats. *)
Definition float_dict (d : list (string * float)) : dict :=
  map (fun kf => (fst kf, PyFloat (snd kf))) d.

(** [l1] is [l2] with some elements left out, the others in their order. *)
Inductive subseq {A : Type} : list A -> list A -> Prop :=
| subseq_nil : subseq [] []
| subseq_keep x l1 l2 : subseq l1 l2 -> subseq (x :: l1) (x :: l2)
| subseq_drop x l1 l2 : subseq l1 l2 -> subseq l1 (x :: l2).

(** A float of the closed range [0.0, 10.0]; a NaN is not one. *)
Definition in_closed_range (f : float) : bool :=
  SFleb float_zero f && SFleb f float_ten.

(** The names of the fields of a model class, in declaration order. *)
Definition field_names (s : schema) : list string :=
  map (fun fld => fst (fst fld)) s.

(** A value of the Python type an annotation names. *)
Fixpoint has_type (a : annot) (v : pyval) : Prop :=
  match a with
  | TStr => exists s, v = PyStr s
  | TInt => exists z, v = PyInt z
  | TFloat => exists f, v = PyFloat f
  | TDictStr a' =>
      exists d, v = PyDict d /\ Forall (fun kv => has_type a' (snd kv)) d
  end.

(** An item of a model that carries the name of a field and a value of the
    field's type. *)
Definition typed_item (fld : string * annot * FieldInfo)
           (kv : string * pyval) : Prop :=
  fst kv = fst (fst fld) /\ has_type (snd (fst fld)) (snd kv).

(* ===================================================================== *)
(** * Facts about dicts and strings *)
(* ===================================================================== *)

Lemma lookup_has_key k d v : lookup k d = Some v -> has_key k d = true.
Proof.
  unfold has_key, keys.
  induction d as [|[k' v'] d IH]; simpl; [discriminate|].
  destruct (String.eqb k k'); simpl; auto.
Qed.

Lemma lookup_none_has_key k d : lookup k d = None -> has_key k d = false.
Proof.
  unfold has_key, keys.
  induction d as [|[k' v'] d IH]; simpl; [reflexivity|].
  destruct (String.eqb k k'); simpl; [discriminate|auto].
Qed.

Lemma lookup_In k d v : lookup k d = Some v -> In (k, v) d.
Proof.
  induction d as [|[k' v'] d IH]; simpl; [discriminate|].
  destruct (String.eqb k k') eqn:E.
  - apply String.eqb_eq in E. intros [= <-]. left. now subst.
  - auto.
Qed.

(** Filtering by key and looking up commute. *)
Lemma lookup_filter (P : string -> bool) k d :
  lookup k (filter (fun kv => P (fst kv)) d)
  = if P k then lookup k d else None.
Proof.
  induction d as [|[k' v'] d IH]; simpl.
  - now destruct (P k).
  - destruct (P k') eqn:Pk'; simpl.
    + destruct (String.eqb k k') eqn:E; [|exact IH].
      apply String.eqb_eq in E. subst. now rewrite Pk'.
    + rewrite IH. destruct (String.eqb k k') eqn:E; [|reflexivity].
      apply String.eqb_eq in E. subst. now rewrite Pk'.
Qed.

Lemma lookup_first k v d :
  In (k, v) d -> NoDup (keys d) -> lookup k d = Some v.
Proof.
  unfold keys.
  induction d as [|[k' v'] d IH]; simpl; [tauto|].
  intros [E|Hin] Hnd; inversion Hnd as [|? ? Hk' Hnd']; subst.
  - injection E as -> ->. now rewrite String.eqb_refl.
  - destruct (String.eqb k k') eqn:E; [|auto].
    apply String.eqb_eq in E. subst. exfalso. apply Hk'.
    change k' with (fst (k', v)). now apply in_map.
Qed.

Lemma rstrip_slashes s :
  exists n, s = rstrip slash s ++ slashes n.
Proof.
  induction s as [|a s [n IH]]; simpl.
  - now exists O.
  - destruct (rstrip slash s) as [|b r] eqn:R.
    + destruct (Ascii.eqb a slash) eqn:E.
      * apply Ascii.eqb_eq in E. subst a. exists (S n). simpl.
        now rewrite IH at 1.
      * exists n. simpl. now rewrite IH at 1.
    + exists n. simpl. simpl in IH. now rewrite IH at 1.
Qed.

Lemma rstrip_no_trailing_slash s : ends_with_slash (rstrip slash s) = false.
Proof.
  induction s as [|a s IH]; simpl; [reflexivity|].
  destruct (rstrip slash s) as [|b r] eqn:R.
  - destruct (Ascii.eqb a slash) eqn:E; simpl; [reflexivity|exact E].
  - exact IH.
Qed.

(* ===================================================================== *)
(** * The HTTP adapter *)
(* ===================================================================== *)

(** What one call of [_post] does, in one equation. *)
Lemma _post_eq st tr jl path payload sent :
  _post st tr jl path payload sent =
  let rq := mkRequest (rstrip slash (rec_engine_url st) ++ path)
                      (PyDict payload) (auth_headers st) 30 in
  ((sent ++ [rq])%list,
   if json_compliant (PyDict payload) then
     match tr rq with
     | None => inl TransportError
     | Some r =>
         if is_success r then
           match jl (text r) with
           | Some v => inr v
           | None => inl JSONDecodeError
           end
         else inl (HTTPStatusError (status_code r) (text r))
     end
   else inl ValueError).
Proof.
  unfold _post, bind, client_post, raise_for_status, response_json, ret, raise.
  cbn [req_json].
  destruct (json_compliant (PyDict payload)); [|reflexivity].
  destruct (tr _) as [r|]; [|reflexivity].
  destruct (is_success r); [|reflexivity].
  destruct (jl (text r)); reflexivity.
Qed.

Lemma auth_headers_spec st h v :
  In (h, v) (auth_headers st) <->
  h = "Authorization"
  /\ exists k, rec_api_key st = Some k /\ k <> "" /\ v = "Bearer " ++ k.
Proof.
  unfold auth_headers.
  destruct (rec_api_key st) as [[|c k]|]; simpl.
  - split; [tauto|]. intros [_ [k [[= <-] [Hk _]]]]. now apply Hk.
  - split.
    + intros [[= <- <-]|[]]. split; [reflexivity|].
      exists (String c k). repeat split. discriminate.
    + intros [-> [k' [[= <-] [_ ->]]]]. now left.
  - split; [tauto|]. intros [_ [k [[=] _]]].
Qed.

(** C4: every call of the HTTP adapter sends one request; its URL is the
    configured base URL without its trailing slashes followed by the path,
    and its headers hold [Authorization: Bearer <api_key>] exactly when an
    API key is configured, that is when [rec_api_key] is a non-empty
    string; they hold no other header. *)
Theorem C4_post_url_and_authorization st tr jl path payload sent :
  exists rq n,
    fst (_post st tr jl path payload sent) = (sent ++ [rq])%list
    /\ req_url rq = rstrip slash (rec_engine_url st) ++ path
    /\ rec_engine_url st = rstrip slash (rec_engine_url st) ++ slashes n
    /\ ends_with_slash (rstrip slash (rec_engine_url st)) = false
    /\ (forall h v,
           In (h, v) (req_headers rq) <->
           h = "Authorization"
           /\ exists k,
               rec_api_key st = Some k /\ k <> "" /\ v = "Bearer " ++ k).
Proof.
  destruct (rstrip_slashes (rec_engine_url st)) as [n Hn].
  rewrite _post_eq. simpl.
  eexists. exists n. split; [reflexivity|]. simpl.
  split; [reflexivity|]. split; [exact Hn|].
  split; [apply rstrip_no_trailing_slash|].
  intros h v. apply auth_headers_spec.
Qed.


Lemma posted_post st tr jl path payload :
  posted (_post st tr jl path payload)
  = [(base_url st ++ path, PyDict payload)].
Proof. unfold posted, sent_by. now rewrite _post_eq. Qed.

(* ===================================================================== *)
(** * Validated invocation of a tool *)
(* ===================================================================== *)


Section Validated.

Variable float_of_str : string -> option float.
Variable int_of_str : string -> option Z.

Local Abbreviation validate := (model_validate float_of_str int_of_str).

Lemma model_validate_arises input s :
  forall m,
    validate s input = Some m ->
    Forall2 (arises float_of_str int_of_str input) s m.
Proof.
  induction s as [|[[n a] info] s IH]; simpl; intros m H.
  - injection H as <-. constructor.
  - destruct (match lookup n input with
              | Some v => validate_field float_of_str int_of_str a info v
              | None => fdefault info
              end) as [v|] eqn:E; [|discriminate].
    destruct (validate s input) as [m'|]; [|discriminate].
    injection H as <-. constructor; [|now apply IH].
    split; [reflexivity|]. simpl.
    destruct (lookup n input); exact E.
Qed.

Lemma model_validate_keys input s m :
  validate s input = Some m -> keys m = map (fun fld => fst (fst fld)) s.
Proof.
  intros H. apply model_validate_arises in H. unfold keys.
  induction H as [|fld kv s' m' [Hk _] _ IH]; simpl; [reflexivity|].
  now rewrite Hk, IH.
Qed.

Lemma bind_params_validated input K s :
  forall m,
    Forall2 (arises float_of_str int_of_str input) s m ->
    (forall k v, In (k, v) m ->
                 lookup k K = if has_key k input then Some v else None) ->
    bind_params (map field_param s) K = Some (map snd m).
Proof.
  induction s as [|[[n a] info] s IH]; intros m HF HK;
    inversion HF as [|? [k v] ? m' [Hk Hv] HF']; subst; simpl in *.
  - reflexivity.
  - subst k. rewrite (HK n v (or_introl eq_refl)).
    rewrite (IH m' HF' (fun k' v' Hin => HK k' v' (or_intror Hin))).
    destruct (lookup n input) eqn:L.
    + now rewrite (lookup_has_key _ _ _ L).
    + now rewrite (lookup_none_has_key _ _ L), Hv.
Qed.

(** Invoking a coherent tool: a [ValidationError] and nothing else when
    the input does not validate, else the function on the validated
    values, in the order of its parameters. *)
Lemma run_validated t input sent :
  coherent t ->
  run float_of_str int_of_str t input sent =
  match validate (args_schema t) input with
  | None => (sent, inl ValidationError)
  | Some m => body (func t) (map snd m) sent
  end.
Proof.
  intros [Hps Hnd]. unfold run, parse_input.
  destruct (validate (args_schema t) input) as [m|] eqn:Hm; [|reflexivity].
  pose proof (model_validate_keys _ _ _ Hm) as Hkeys.
  assert (Hnames : map fst (params (func t)) = keys m).
  { rewrite <- Hps, Hkeys, map_map. reflexivity. }
  unfold call.
  set (K := filter (fun kv => has_key (fst kv) input) m).
  replace (forallb _ (keys K)) with true.
  - rewrite <- Hps.
    rewrite (bind_params_validated input K (args_schema t) m); [reflexivity| |].
    + now apply model_validate_arises.
    + intros k v Hin. unfold K.
      rewrite (lookup_filter (fun k => has_key k input)).
      destruct (has_key k input); [|reflexivity].
      apply lookup_first; [assumption|]. now rewrite <- Hnames.
  - symmetry. apply forallb_forall. intros k Hk.
    apply existsb_exists. exists k. split; [|apply String.eqb_refl].
    rewrite Hnames. unfold keys, K in *.
    apply in_map_iff in Hk. destruct Hk as [kv [<- Hin]].
    apply filter_In in Hin. now apply in_map.
Qed.

End Validated.

Section ToolFacts.

Variable st : Settings.
Variable tr : Request -> option Response.
Variable jl : string -> option pyval.

Lemma deep_agent_tools_coherent :
  Forall coherent (deep_agent_tools st tr jl).
Proof.
  repeat constructor; simpl; intuition (discriminate || auto).
Qed.

End ToolFacts.

(** A validated model with known keys, item by item. *)
Ltac model_shape H :=
  unfold keys in H;
  repeat match type of H with
         | map fst ?m = _ :: _ =>
             destruct m as [|[? ?] ?]; simpl in H; [discriminate H|];
             let E := fresh "Ekey" in
             injection H as E H; subst
         | map fst ?m = [] =>
             destruct m; simpl in H; [clear H|discriminate H]
         end.

(* ===================================================================== *)
(** * The capability functions and their tools *)
(* ===================================================================== *)

(** C10: a capability function called directly forwards its arguments, of
    whatever value, unchanged to the POST of its path; the checks of the
    request models run in the invocation of a tool and nowhere else: a tool
    raises [ValidationError] when its schema refuses the input, and else
    calls its function on the validated values. *)
Theorem C10_functions_forward_unvalidated st tr jl fos ios :
  (forall weights,
      posted (set_recommendation_weights st tr jl weights)
      = [(base_url st ++ "/api/control/set_weights",
          PyDict [("weights", weights)])])
  /\ (forall creator_id factor,
         posted (boost_creator st tr jl creator_id factor)
         = [(base_url st ++ "/api/control/boost_creator",
             PyDict [("creator_id", creator_id); ("factor", factor)])])
  /\ (forall creator_id factor,
         posted (demote_creator st tr jl creator_id factor)
         = [(base_url st ++ "/api/control/demote_creator",
             PyDict [("creator_id", creator_id); ("factor", factor)])])
  /\ (forall tag,
         posted (block_tag st tr jl tag)
         = [(base_url st ++ "/api/control/block_tag", PyDict [("tag", tag)])])
  /\ (forall tag,
         posted (unblock_tag st tr jl tag)
         = [(base_url st ++ "/api/control/unblock_tag",
             PyDict [("tag", tag)])])
  /\ (forall query limit,
         posted (search_content st tr jl query limit)
         = [(base_url st ++ "/api/search/content",
             PyDict [("query", query); ("limit", limit)])])
  /\ (forall category limit,
         posted (trending_content st tr jl category limit)
         = [(base_url st ++ "/api/content/trending",
             PyDict [("category", category); ("limit", limit)])])
  /\ (forall user_id limit,
         posted (personalized_feed st tr jl user_id limit)
         = [(base_url st ++ "/api/content/personalized_feed",
             PyDict [("user_id", user_id); ("limit", limit)])])
  /\ Forall
       (fun t =>
          forall input sent,
            run fos ios t input sent =
            match model_validate fos ios (args_schema t) input with
            | None => (sent, inl ValidationError)
            | Some m => body (func t) (map snd m) sent
            end)
       (deep_agent_tools st tr jl).
Proof.
  repeat (split; [intros; apply posted_post|]).
  eapply Forall_impl; [|apply deep_agent_tools_coherent].
  intros t Ht input sent. now apply run_validated.
Qed.


(** C3: the payload of [block_tag("sports")] is the object with the one key
    [tag], posted to [/api/control/block_tag]; for every tool and every
    input that its request model accepts, one request goes to the fixed path
    of the capability, and its payload is the validated model, whose keys
    are exactly the declared ones; and every capability function called
    directly posts, to its fixed path, its arguments under the names of its
    parameters, which are the declared keys. *)
Theorem C3_payload_keys_and_path st tr jl fos ios :
  posted (block_tag st tr jl (PyStr "sports"))
  = [(base_url st ++ "/api/control/block_tag",
      PyDict [("tag", PyStr "sports")])]
  /\ (forall t input m sent,
      In t (deep_agent_tools st tr jl) ->
      model_validate fos ios (args_schema t) input = Some m ->
      exists path ks,
        In (name t, (path, ks)) capability_mapping
        /\ fst (run fos ios t input sent)
           = (sent ++ [mkRequest (base_url st ++ path) (PyDict m)
                                 (auth_headers st) 30])%list
        /\ keys m = ks)
  /\ (forall f args,
         In f (capability_functions st tr jl) ->
         List.length args = List.length (params f) ->
         exists path nm,
           posted (body f args)
           = [(base_url st ++ path,
               PyDict (combine (map fst (params f)) args))]
           /\ In (nm, (path, map fst (params f))) capability_mapping).
Proof.
  split; [apply posted_post|]. split; cycle 1.
  { intros f args Hin Hlen. simpl in Hin.
    repeat (destruct Hin as [<-|Hin]); try contradiction; simpl in Hlen;
      repeat (destruct args as [|? args]; try discriminate Hlen);
      simpl;
      match goal with
      | |- context [?g st tr jl] => unfold g
      end;
      do 2 eexists;
      (split; [apply posted_post
              |repeat (first [left; reflexivity | right])]). }
  intros t input m sent Hin Hm.
  pose proof (deep_agent_tools_coherent st tr jl) as Hco.
  rewrite Forall_forall in Hco.
  rewrite (run_validated fos ios t input sent (Hco t Hin)), Hm.
  pose proof (model_validate_keys _ _ _ _ _ Hm) as Hk.
  simpl in Hin.
  repeat (destruct Hin as [<-|Hin]); try contradiction;
    simpl in Hk; model_shape Hk; simpl;
    match goal with
    | |- context [?g st tr jl] => unfold g
    end;
    rewrite _post_eq; simpl;
    do 2 eexists; (split; [|split; reflexivity]); simpl; tauto.
Qed.

(** C1, as the code has it: when the factor handed to the [boost_creator]
    or [demote_creator] tool stands for no float of the closed range
    [0.0, 10.0] (a float below or above it, a NaN, a number too large for a
    float), the invocation raises [ValidationError] and [client.post] is
    not called; the functions themselves, called directly, check nothing
    and hand the factor, whatever it is, to [client.post]. *)
Theorem C1_tool_rejects_factor_out_of_range st tr jl fos ios :
  (forall t input raw sent,
      t = boost_creator_tool st tr jl \/ t = demote_creator_tool st tr jl ->
      lookup "factor" input = Some raw ->
      (forall f, float_validator fos raw = Some f ->
                 in_closed_range f = false) ->
      run fos ios t input sent = (sent, inl ValidationError))
  /\ (forall creator_id factor,
         posted (boost_creator st tr jl creator_id factor)
         = [(base_url st ++ "/api/control/boost_creator",
             PyDict [("creator_id", creator_id); ("factor", factor)])])
  /\ (forall creator_id factor,
         posted (demote_creator st tr jl creator_id factor)
         = [(base_url st ++ "/api/control/demote_creator",
             PyDict [("creator_id", creator_id); ("factor", factor)])]).
Proof.
  split; [|split; intros; apply posted_post].
  intros t input raw sent Ht Hraw Hout.
  assert (Hnone : forall d,
            validate_field fos ios TFloat
              (mkField None (Some float_zero) (Some float_ten) d) raw = None).
  { intros d. unfold validate_field, within_bounds. simpl.
    destruct (float_validator fos raw) as [f|]; simpl; [|reflexivity].
    specialize (Hout f eq_refl). unfold in_closed_range in Hout.
    rewrite andb_comm in Hout. now rewrite Hout. }
  destruct Ht as [-> | ->]; unfold run, parse_input; simpl;
    rewrite Hraw, Hnone;
    now destruct (match lookup "creator_id" input with
                  | Some v => _
                  | None => _
                  end).
Qed.

(* ===================================================================== *)
(** * The request models *)
(* ===================================================================== *)

Lemma map_items_fails f d k v :
  In (k, v) d -> f v = None -> map_items f d = None.
Proof.
  induction d as [|[k' v'] d IH]; simpl; [tauto|].
  intros [[= -> ->]|Hin] Hf.
  - now rewrite Hf.
  - rewrite (IH Hin Hf). now destruct (f v').
Qed.

Lemma map_items_idem f :
  (forall v v', f v = Some v' -> f v' = Some v') ->
  forall d d', map_items f d = Some d' -> map_items f d' = Some d'.
Proof.
  intros Hf. induction d as [|[k v] d IH]; simpl; intros d' H.
  - now injection H as <-.
  - destruct (f v) as [v'|] eqn:Ev; [|discriminate].
    destruct (map_items f d) as [r|]; [|discriminate].
    injection H as <-. simpl. now rewrite (Hf _ _ Ev), (IH r eq_refl).
Qed.

Lemma map_items_floats fos d :
  forall d', map_items (fun v => option_map PyFloat (float_validator fos v)) d
             = Some d' ->
             Forall (fun kv => exists f, snd kv = PyFloat f) d'.
Proof.
  induction d as [|[k v] d IH]; simpl; intros d' H.
  - injection H as <-. constructor.
  - destruct (float_validator fos v) as [f|]; simpl in H; [|discriminate].
    destruct (map_items _ d) as [r|]; [|discriminate].
    injection H as <-. constructor; [now exists f|now apply IH].
Qed.

Lemma map_items_float_dict fos d :
  map_items (fun v => option_map PyFloat (float_validator fos v))
            (float_dict d)
  = Some (float_dict d).
Proof.
  induction d as [|[k f] d IH]; simpl; [reflexivity|now rewrite IH].
Qed.

Lemma non_numeric_refused fos v :
  non_numeric fos v -> float_validator fos v = None.
Proof. destruct v; simpl; intros H; (contradiction || auto). Qed.

Section Idempotence.

Variable fos : string -> option float.
Variable ios : string -> option Z.

Lemma validate_annot_idem a :
  forall v v',
    validate_annot fos ios a v = Some v' ->
    validate_annot fos ios a v' = Some v'.
Proof.
  induction a as [| | |a IH]; intros v v' H; simpl in *.
  - destruct v; simpl in H; try discriminate. now injection H as <-.
  - destruct (int_validator ios v); simpl in H; [|discriminate].
    now injection H as <-.
  - destruct (float_validator fos v); simpl in H; [|discriminate].
    now injection H as <-.
  - destruct v; try discriminate.
    destruct (map_items (validate_annot fos ios a) d) as [d'|] eqn:E;
      simpl in H; [|discriminate].
    injection H as <-. now rewrite (map_items_idem _ IH _ _ E).
Qed.

Lemma validate_field_idem a info v v' :
  validate_field fos ios a info v = Some v' ->
  validate_field fos ios a info v' = Some v'.
Proof.
  unfold validate_field.
  destruct (validate_annot fos ios a v) as [w|] eqn:E; [|discriminate].
  apply validate_annot_idem in E.
  destruct w; try (intros [= <-]; now rewrite E).
  destruct (within_bounds info f) eqn:B; [|discriminate].
  intros [= <-]. now rewrite E, B.
Qed.

End Idempotence.

(** An item of a validated model validates to itself. *)
Ltac revalidate_item H :=
  destruct H as [_ H]; simpl in H;
  match type of H with
  | match lookup ?k ?input with _ => _ end =>
      destruct (lookup k input);
      [apply validate_field_idem in H; rewrite H
      |try discriminate H; injection H as <-]
  end.

(** C9: validating the values of an already valid request model again
    succeeds and yields the same values, for each of the eight models. *)
Theorem C9_validation_idempotent fos ios s input m :
  In s request_models ->
  model_validate fos ios s input = Some m ->
  model_validate fos ios s m = Some m.
Proof.
  intros Hin Hm.
  pose proof (model_validate_keys _ _ _ _ _ Hm) as Hk.
  pose proof (model_validate_arises _ _ _ _ _ Hm) as Ha.
  simpl in Hin.
  repeat (destruct Hin as [<-|Hin]); try contradiction;
    simpl in Hk; model_shape Hk;
    unfold SetWeightsInput, BoostCreatorInput, DemoteCreatorInput,
      BlockTagInput, UnblockTagInput, SearchContentInput,
      TrendingContentInput, PersonalizedFeedInput in Ha;
    repeat match goal with
           | H : Forall2 _ (_ :: _) (_ :: _) |- _ =>
               let H1 := fresh "Hitem" in
               let H2 := fresh "Hrest" in
               inversion H as [|? ? ? ? H1 H2]; subst; clear H
           | H : Forall2 _ [] [] |- _ => clear H
           end;
    simpl;
    repeat match goal with
           | H : arises _ _ _ _ _ |- _ => revalidate_item H
           end;
    reflexivity.
Qed.

(** C6, as the code has it: the [set_recommendation_weights] tool raises
    [ValidationError], and sends nothing, when a value of the mapping is
    non-numeric; an accepted mapping has floats for values; and every
    mapping from strings to floats is accepted as it is, whatever its keys
    (the empty string too) and its values (infinities and NaN too). *)
Theorem C6_weights_are_floats st tr jl fos ios input sent :
  (forall d k v,
      lookup "weights" input = Some (PyDict d) ->
      In (k, v) d -> non_numeric fos v ->
      run fos ios (set_weights_tool st tr jl) input sent
      = (sent, inl ValidationError))
  /\ (forall m,
         model_validate fos ios SetWeightsInput input = Some m ->
         exists d,
           m = [("weights", PyDict d)]
           /\ Forall (fun kv => exists f, snd kv = PyFloat f) d)
  /\ (forall d,
         model_validate fos ios SetWeightsInput
                        [("weights", PyDict (float_dict d))]
         = Some [("weights", PyDict (float_dict d))]).
Proof.
  split; [|split].
  - intros d k v Hw Hin Hv.
    unfold run, parse_input. simpl. rewrite Hw.
    unfold validate_field. simpl.
    rewrite (map_items_fails _ d k v Hin); [reflexivity|].
    now rewrite (non_numeric_refused _ _ Hv).
  - intros m. simpl.
    destruct (lookup "weights" input) as [v|]; [|discriminate].
    unfold validate_field. simpl.
    destruct v; try discriminate.
    destruct (map_items _ d) as [d'|] eqn:E; simpl; [|discriminate].
    intros [= <-]. exists d'. split; [reflexivity|].
    now apply (map_items_floats fos d).
  - intros d. simpl. unfold validate_field. simpl.
    now rewrite map_items_float_dict.
Qed.

(** C7, as the code has it: for the search, trending and personalized-feed
    tools a [limit] that is no integer is refused with [ValidationError]
    and nothing is sent; every integer is accepted, those below 1 too, and
    comes out of validation unchanged; an omitted [limit] is 10, in the
    request model and in the function alike; and an omitted [category] of
    the trending tool is ["all"]. *)
Theorem C7_limit_any_integer_default_10 st tr jl fos ios t input sent :
  In t (limit_tools st tr jl) ->
  (forall raw,
      lookup "limit" input = Some raw -> int_validator ios raw = None ->
      run fos ios t input sent = (sent, inl ValidationError))
  /\ (forall raw z m,
         lookup "limit" input = Some raw -> int_validator ios raw = Some z ->
         model_validate fos ios (args_schema t) input = Some m ->
         lookup "limit" m = Some (PyInt z))
  /\ (forall z,
         exists info,
           In ("limit", TInt, info) (args_schema t)
           /\ validate_field fos ios TInt info (PyInt z) = Some (PyInt z))
  /\ (forall m,
         lookup "limit" input = None ->
         model_validate fos ios (args_schema t) input = Some m ->
         lookup "limit" m = Some (PyInt 10))
  /\ In ("limit", Some (PyInt 10)) (params (func t))
  /\ (forall m,
         lookup "category" input = None ->
         model_validate fos ios TrendingContentInput input = Some m ->
         lookup "category" m = Some (PyStr "all"))
  /\ In ("category", Some (PyStr "all"))
        (params (trending_content_fn st tr jl)).
Proof.
  intros Hin. simpl in Hin.
  repeat (destruct Hin as [<-|Hin]); try contradiction;
    (split; [|split; [|split; [|split; [|split; [|split]]]]]);
    try (simpl; tauto).
  all: try (intros z; eexists; split;
            [simpl; right; left; reflexivity|reflexivity]).
  all: try (intros raw Hraw Hnone; unfold run, parse_input; simpl;
            rewrite Hraw; unfold validate_field at 2; simpl; rewrite Hnone;
            simpl;
            now destruct (match lookup _ input with
                          | Some v => _
                          | None => _
                          end)).
  all: try (intros raw z m Hraw Hz; simpl; rewrite Hraw;
            unfold validate_field at 2; simpl; rewrite Hz; simpl;
            destruct (match lookup _ input with
                      | Some v => _
                      | None => _
                      end); [|discriminate];
            intros [= <-]; reflexivity).
  all: intros m Hnone; simpl; rewrite Hnone; simpl;
    repeat match goal with
           | |- context [match ?x with Some _ => _ | None => _ end] =>
               destruct x; try discriminate
           end;
    intros [= <-]; reflexivity.
Qed.

(** C8, as the code has it: [creator_id], [tag], [query] and [user_id] are
    required strings; when one is missing or is not a string the tool
    raises [ValidationError] and sends nothing; every string, the empty one
    too, is accepted and comes out of validation unchanged. *)
Theorem C8_required_string_arguments st tr jl fos ios t fld input sent :
  In (t, fld) (string_arguments st tr jl) ->
  ((forall s, lookup fld input <> Some (PyStr s)) ->
   run fos ios t input sent = (sent, inl ValidationError))
  /\ (forall s m,
         lookup fld input = Some (PyStr s) ->
         model_validate fos ios (args_schema t) input = Some m ->
         lookup fld m = Some (PyStr s))
  /\ (forall s,
         exists info,
           In (fld, TStr, info) (args_schema t)
           /\ validate_field fos ios TStr info (PyStr s) = Some (PyStr s)).
Proof.
  intros Hin. simpl in Hin.
  repeat (destruct Hin as [[= <- <-]|Hin]); try contradiction;
    (split; [|split]).
  all: try (intros s; eexists; split; [simpl; left; reflexivity|reflexivity]).
  all: try (intros Hno; unfold run, parse_input; simpl;
            destruct (lookup _ input) as [[]|]; try reflexivity;
            exfalso; eapply Hno; reflexivity).
  all: intros s m Hs; simpl; rewrite Hs; unfold validate_field at 1; simpl;
    repeat match goal with
           | |- context [match ?x with Some _ => _ | None => _ end] =>
               destruct x; try discriminate
           end;
    intros [= <-]; reflexivity.
Qed.

(* ===================================================================== *)
(** * The policy gate *)
(* ===================================================================== *)

Lemma prefix_spec a : forall h,
  String.prefix a h = true <-> exists post, h = a ++ post.
Proof.
  induction a as [|c a IH]; intros h.
  - split; [intros _; now exists h|intros _; now destruct h].
  - destruct h as [|c' h]; simpl.
    + split; [discriminate|]. intros [post [=]].
    + destruct (Ascii.ascii_dec c c') as [<-|Hne].
      * rewrite IH. split; intros [post Hp]; exists post.
        -- now rewrite Hp.
        -- now injection Hp.
      * split; [discriminate|]. intros [post [= E _]]. now elim Hne.
Qed.

Lemma is_substring_spec a : forall h,
  is_substring a h = true <-> exists pre post, h = pre ++ a ++ post.
Proof.
  induction h as [|c h IH].
  - change (is_substring a "") with (String.prefix a "" || false).
    rewrite orb_false_r, prefix_spec. split.
    + intros [post Hp]. now exists "", post.
    + intros [[|? ?] [post Hp]]; [now exists post|discriminate].
  - change (is_substring a (String c h))
      with (String.prefix a (String c h) || is_substring a h).
    rewrite orb_true_iff, prefix_spec, IH. split.
    + intros [[post Hp]|[pre [post Hp]]].
      * now exists "", post.
      * exists (String c pre), post. simpl. now rewrite Hp.
    + intros [[|c' pre] [post Hp]].
      * left. now exists post.
      * right. exists pre, post. simpl in Hp. now injection Hp.
Qed.

Lemma is_disallowed_spec t :
  is_disallowed t = true <->
  exists a pre post,
    In a DisallowedActionSet /\ lower (name t) = pre ++ a ++ post.
Proof.
  unfold is_disallowed. rewrite existsb_exists. split.
  - intros [a [Hin Hs]]. apply is_substring_spec in Hs.
    destruct Hs as [pre [post Hs]]. now exists a, pre, post.
  - intros [a [pre [post [Hin Hs]]]]. exists a. split; [assumption|].
    apply is_substring_spec. now exists pre, post.
Qed.

Lemma guard_filter_filter tools :
  guard_filter tools = filter (fun t => negb (is_disallowed t)) tools.
Proof.
  induction tools as [|t tools IH]; simpl; [reflexivity|].
  destruct (is_disallowed t); simpl; now rewrite IH.
Qed.

Lemma guard_filter_subseq tools : subseq (guard_filter tools) tools.
Proof.
  induction tools as [|t tools IH]; simpl; [constructor|].
  destruct (is_disallowed t); now constructor.
Qed.

Lemma guard_filter_In tools t :
  In t (guard_filter tools) <-> In t tools /\ is_disallowed t = false.
Proof.
  rewrite guard_filter_filter, filter_In.
  now destruct (is_disallowed t).
Qed.

Lemma guard_tools_returns tools req out :
  guard_tools tools req = inr out -> out = guard_filter tools.
Proof.
  unfold guard_tools.
  destruct (guard_filter tools); [destruct req|]; now intros [= <-].
Qed.

(** C2: the gate maps [like_post, boost_creator, auto_comment] to
    [boost_creator] alone; on every sequence, what it returns holds exactly
    the descriptors of the input that do not match, in their order; a
    descriptor matches exactly when its case-folded name contains a member
    of the disallowed-action set; and the gate returns on every sequence
    when no tool is required. *)
Theorem C2_guard_drops_disallowed_keeps_order :
  (forall req,
      guard_tools [tool "like_post"; tool "boost_creator"; tool "auto_comment"]
                  req
      = inr [tool "boost_creator"])
  /\ (forall tools req out,
         guard_tools tools req = inr out ->
         (forall t, In t out <-> In t tools /\ is_disallowed t = false)
         /\ subseq out tools
         /\ out = filter (fun t => negb (is_disallowed t)) tools)
  /\ (forall t,
         is_disallowed t = true <->
         exists a pre post,
           In a DisallowedActionSet /\ lower (name t) = pre ++ a ++ post)
  /\ (forall tools, guard_tools tools false = inr (guard_filter tools)).
Proof.
  split; [intros []; reflexivity|]. split; [|split].
  - intros tools req out H. apply guard_tools_returns in H. subst out.
    split; [intros t; apply guard_filter_In|].
    split; [apply guard_filter_subseq|apply guard_filter_filter].
  - apply is_disallowed_spec.
  - intros tools. unfold guard_tools. now destruct (guard_filter tools).
Qed.

(* ===================================================================== *)
(** * Runs on the concrete world *)
(* ===================================================================== *)

(** C1 at the factors 11.0 and NaN handed to the [boost_creator] tool. *)
Lemma C1_tool_rejects_eleven_and_nan :
  run Example.float_of_str Example.int_of_str
      (boost_creator_tool Example.settings Example.transport_ok
                          Example.json_loads)
      [("creator_id", PyStr "c"); ("factor", PyFloat Example.float_eleven)] []
  = ([], inl ValidationError)
  /\ run Example.float_of_str Example.int_of_str
         (boost_creator_tool Example.settings Example.transport_ok
                             Example.json_loads)
         [("creator_id", PyStr "c"); ("factor", PyFloat S754_nan)] []
     = ([], inl ValidationError).
Proof.
  split.
  - apply (proj1 (C1_tool_rejects_factor_out_of_range
                    Example.settings Example.transport_ok Example.json_loads
                    Example.float_of_str Example.int_of_str)
                 _ _ (PyFloat Example.float_eleven)).
    + left. reflexivity.
    + reflexivity.
    + intros f [= <-]. reflexivity.
  - apply (proj1 (C1_tool_rejects_factor_out_of_range
                    Example.settings Example.transport_ok Example.json_loads
                    Example.float_of_str Example.int_of_str)
                 _ _ (PyFloat S754_nan)).
    + left. reflexivity.
    + reflexivity.
    + intros f [= <-]. reflexivity.
Defined.

(** The claim C1 read on the functions fails: [boost_creator] and
    [demote_creator] called with the factor 11.0, which is above 10.0,
    raise nothing and send the request. *)
Lemma C1_direct_call_posts_out_of_range :
  SFltb float_ten Example.float_eleven = true
  /\ boost_creator Example.settings Example.transport_ok Example.json_loads
                   (PyStr "c") (PyFloat Example.float_eleven) []
     = ([mkRequest "https://rec.example/api/control/boost_creator"
                   (PyDict [("creator_id", PyStr "c");
                            ("factor", PyFloat Example.float_eleven)])
                   [] 30],
        inr (PyDict []))
  /\ demote_creator Example.settings Example.transport_ok Example.json_loads
                    (PyStr "c") (PyFloat Example.float_eleven) []
     = ([mkRequest "https://rec.example/api/control/demote_creator"
                   (PyDict [("creator_id", PyStr "c");
                            ("factor", PyFloat Example.float_eleven)])
                   [] 30],
        inr (PyDict [])).
Proof. repeat split. Qed.

(** C2 on a sequence with upper-case names. *)
Lemma C2_guard_mixed_case :
  subseq [tool "Boost_Creator"]
         [tool "LIKE_post"; tool "Boost_Creator"; tool "Auto_Comment"].
Proof.
  apply (proj1 (proj2 C2_guard_drops_disallowed_keeps_order)
               [tool "LIKE_post"; tool "Boost_Creator"; tool "Auto_Comment"]
               true [tool "Boost_Creator"]).
  reflexivity.
Defined.

(** C3 at the [block_tag] tool with the tag [sports]. *)
Lemma C3_block_tag_sports :
  exists path ks,
    In ("block_tag", (path, ks)) capability_mapping
    /\ fst (run Example.float_of_str Example.int_of_str
                (block_tag_tool Example.settings Example.transport_ok
                                Example.json_loads)
                [("tag", PyStr "sports")] [])
       = [mkRequest (base_url Example.settings ++ path)
                    (PyDict [("tag", PyStr "sports")])
                    (auth_headers Example.settings) 30]
    /\ keys [("tag", PyStr "sports")] = ks.
Proof.
  apply (proj1 (proj2 (C3_payload_keys_and_path
                  Example.settings Example.transport_ok Example.json_loads
                  Example.float_of_str Example.int_of_str))
               (block_tag_tool Example.settings Example.transport_ok
                               Example.json_loads)
               [("tag", PyStr "sports")] [("tag", PyStr "sports")] []).
  - simpl. tauto.
  - reflexivity.
Defined.


(** C6 at a mapping with a [None] value. *)
Lemma C6_none_weight_refused :
  run Example.float_of_str Example.int_of_str
      (set_weights_tool Example.settings Example.transport_ok
                        Example.json_loads)
      [("weights", PyDict [("freshness", PyNone)])] []
  = ([], inl ValidationError).
Proof.
  apply (proj1 (C6_weights_are_floats
                  Example.settings Example.transport_ok Example.json_loads
                  Example.float_of_str Example.int_of_str
                  [("weights", PyDict [("freshness", PyNone)])] [])
               [("freshness", PyNone)] "freshness" PyNone).
  - reflexivity.
  - left. reflexivity.
  - exact I.
Defined.

(** The invariant of the claim C6 fails on accepted mappings: the empty
    key with the value infinity, and a NaN, are validated unchanged; and a
    mapping with the empty key is posted. *)
Lemma C6_empty_key_and_infinity_accepted :
  let w := [("", PyFloat (S754_infinity false)); ("x", PyFloat S754_nan)] in
  let w' := [("", PyFloat float_one)] in
  model_validate Example.float_of_str Example.int_of_str SetWeightsInput
                 [("weights", PyDict w)]
  = Some [("weights", PyDict w)]
  /\ weights_invariant w = false
  /\ weights_invariant w' = false
  /\ run Example.float_of_str Example.int_of_str
         (set_weights_tool Example.settings Example.transport_ok
                           Example.json_loads)
         [("weights", PyDict w')] []
     = ([mkRequest "https://rec.example/api/control/set_weights"
                   (PyDict [("weights", PyDict w')]) [] 30],
        inr (PyDict [])).
Proof. repeat split. Qed.

(** C7 at the [search_content] tool with a [limit] that is [None]. *)
Lemma C7_none_limit_refused :
  run Example.float_of_str Example.int_of_str
      (search_content_tool Example.settings Example.transport_ok
                           Example.json_loads)
      [("query", PyStr "x"); ("limit", PyNone)] []
  = ([], inl ValidationError).
Proof.
  apply (proj1 (C7_limit_any_integer_default_10
                  Example.settings Example.transport_ok Example.json_loads
                  Example.float_of_str Example.int_of_str
                  (search_content_tool Example.settings Example.transport_ok
                                       Example.json_loads)
                  [("query", PyStr "x"); ("limit", PyNone)] []
                  (or_introl eq_refl))
               PyNone).
  - reflexivity.
  - reflexivity.
Defined.

(** The bound of the claim C7 fails: the limits 0 and -5, below 1, pass
    validation and are posted. *)
Lemma C7_limit_below_one_accepted :
  0 < 1 /\ -5 < 1
  /\ run Example.float_of_str Example.int_of_str
         (search_content_tool Example.settings Example.transport_ok
                              Example.json_loads)
         [("query", PyStr "x"); ("limit", PyInt 0)] []
     = ([mkRequest "https://rec.example/api/search/content"
                   (PyDict [("query", PyStr "x"); ("limit", PyInt 0)])
                   [] 30],
        inr (PyDict []))
  /\ run Example.float_of_str Example.int_of_str
         (personalized_feed_tool Example.settings Example.transport_ok
                                 Example.json_loads)
         [("user_id", PyStr "u"); ("limit", PyInt (-5))] []
     = ([mkRequest "https://rec.example/api/content/personalized_feed"
                   (PyDict [("user_id", PyStr "u"); ("limit", PyInt (-5))])
                   [] 30],
        inr (PyDict [])).
Proof. repeat split. Qed.

(** C8 at the [block_tag] tool with no [tag]. *)
Lemma C8_missing_tag_refused :
  run Example.float_of_str Example.int_of_str
      (block_tag_tool Example.settings Example.transport_ok
                      Example.json_loads)
      [] []
  = ([], inl ValidationError).
Proof.
  apply (proj1 (C8_required_string_arguments
                  Example.settings Example.transport_ok Example.json_loads
                  Example.float_of_str Example.int_of_str
                  (block_tag_tool Example.settings Example.transport_ok
                                  Example.json_loads)
                  "tag" [] []
                  (or_intror (or_intror (or_introl eq_refl))))).
  intros s. discriminate.
Defined.

(** The claim C8 fails: the empty [tag] and the empty [creator_id] pass
    validation and are posted. *)
Lemma C8_empty_string_accepted :
  run Example.float_of_str Example.int_of_str
      (block_tag_tool Example.settings Example.transport_ok
                      Example.json_loads)
      [("tag", PyStr "")] []
  = ([mkRequest "https://rec.example/api/control/block_tag"
                (PyDict [("tag", PyStr "")]) [] 30],
     inr (PyDict []))
  /\ run Example.float_of_str Example.int_of_str
         (boost_creator_tool Example.settings Example.transport_ok
                             Example.json_loads)
         [("creator_id", PyStr ""); ("factor", PyInt 3)] []
     = ([mkRequest "https://rec.example/api/control/boost_creator"
                   (PyDict [("creator_id", PyStr "");
                            ("factor", PyFloat float_three)])
                   [] 30],
        inr (PyDict [])).
Proof. repeat split. Qed.

(** C9 at a boost request whose factor was given as the integer 3. *)
Lemma C9_boost_revalidated :
  model_validate Example.float_of_str Example.int_of_str BoostCreatorInput
                 [("creator_id", PyStr "c"); ("factor", PyFloat float_three)]
  = Some [("creator_id", PyStr "c"); ("factor", PyFloat float_three)].
Proof.
  apply (C9_validation_idempotent
           Example.float_of_str Example.int_of_str BoostCreatorInput
           [("creator_id", PyStr "c"); ("factor", PyInt 3)]).
  - simpl. tauto.
  - reflexivity.
Defined.

(* ===================================================================== *)
(** * Further facts about the adapter *)
(* ===================================================================== *)

Lemma has_key_lookup k d :
  has_key k d = match lookup k d with Some _ => true | None => false end.
Proof.
  destruct (lookup k d) eqn:E.
  - now apply lookup_has_key with (v := p).
  - now apply lookup_none_has_key.
Qed.

Lemma app_one_not_self {A} (l : list A) (x : A) : (l ++ [x])%list <> l.
Proof.
  intros H. apply (f_equal (@List.length A)) in H.
  rewrite length_app in H. simpl in H. lia.
Qed.

(** Every capability function is one [_post] of its arguments under the
    names of its parameters. *)
Lemma capability_body_post st tr jl f args :
  In f (capability_functions st tr jl) ->
  List.length args = List.length (params f) ->
  exists path,
    body f args = _post st tr jl path (combine (map fst (params f)) args).
Proof.
  intros Hin Hlen. simpl in Hin.
  repeat (destruct Hin as [<-|Hin]); try contradiction; simpl in Hlen;
    repeat (destruct args as [|? args]; try discriminate Hlen);
    simpl; eexists; reflexivity.
Qed.

Lemma tool_func_capability st tr jl t :
  In t (deep_agent_tools st tr jl) ->
  In (func t) (capability_functions st tr jl).
Proof.
  simpl. intros H.
  repeat (destruct H as [<-|H]; [simpl; tauto|]). contradiction.
Qed.

Lemma rstrip_only_slashes n : rstrip slash (slashes n) = "".
Proof. induction n as [|n IH]; simpl; [reflexivity|now rewrite IH]. Qed.

Lemma rstrip_app_slashes u n :
  rstrip slash (u ++ slashes n) = rstrip slash u.
Proof.
  induction u as [|a u IH]; simpl.
  - apply rstrip_only_slashes.
  - now rewrite IH.
Qed.

Lemma rstrip_fixed u : ends_with_slash u = false -> rstrip slash u = u.
Proof.
  induction u as [|a u IH]; simpl; [reflexivity|].
  destruct u as [|b u].
  - simpl. now intros ->.
  - intros H. now rewrite (IH H).
Qed.



Lemma combine_fst_snd (m : dict) : combine (map fst m) (map snd m) = m.
Proof.
  induction m as [|[k v] m IH]; simpl; [reflexivity|now rewrite IH].
Qed.


(** The trailing slashes of the configured base URL do not matter: a call
    under a base URL and a call under that URL followed by any number of
    slashes are the same call; a base URL made of slashes only leaves the
    path alone as the URL; a base URL that ends in no slash is used as it
    is; and stripping is idempotent. *)
Theorem base_url_trailing_slashes u k n :
  (forall tr jl path payload sent,
      _post (mkSettings (u ++ slashes n) k) tr jl path payload sent
      = _post (mkSettings u k) tr jl path payload sent)
  /\ (forall tr jl path payload,
         posted (_post (mkSettings (slashes n) k) tr jl path payload)
         = [(path, PyDict payload)])
  /\ (ends_with_slash u = false -> base_url (mkSettings u k) = u)
  /\ rstrip slash (rstrip slash u) = rstrip slash u.
Proof.
  split; [|split; [|split]].
  - intros tr jl path payload sent. rewrite !_post_eq. simpl.
    unfold auth_headers. simpl. now rewrite rstrip_app_slashes.
  - intros tr jl path payload. rewrite posted_post. unfold base_url. simpl.
    now rewrite rstrip_only_slashes.
  - apply rstrip_fixed.
  - apply rstrip_fixed, rstrip_no_trailing_slash.
Qed.

(* ===================================================================== *)
(** * Further facts about the invocation of a tool *)
(* ===================================================================== *)

Lemma validated_length fos ios t input m :
  coherent t ->
  model_validate fos ios (args_schema t) input = Some m ->
  List.length (map snd m) = List.length (params (func t)).
Proof.
  intros [Hps _] Hm. apply model_validate_keys in Hm.
  apply (f_equal (@List.length string)) in Hm. unfold keys in Hm.
  rewrite <- Hps. now rewrite !length_map in *.
Qed.

(** A tool of the agent does not call [client.post] exactly when its
    request model refuses the input, and that is exactly when it raises
    [ValidationError]; otherwise it calls [client.post] once, with the
    validated model as payload, and when that model holds a NaN or an
    infinity the call raises [ValueError] whatever the transport would
    answer.  A tool never raises [TypeError]: the validated arguments
    always fit its function. *)
Theorem tool_sends_nothing_iff_invalid st tr jl fos ios t input sent :
  In t (deep_agent_tools st tr jl) ->
  (model_validate fos ios (args_schema t) input = None <->
   snd (run fos ios t input sent) = inl ValidationError)
  /\ (model_validate fos ios (args_schema t) input = None <->
      fst (run fos ios t input sent) = sent)
  /\ (forall m,
         model_validate fos ios (args_schema t) input = Some m ->
         exists rq,
           fst (run fos ios t input sent) = (sent ++ [rq])%list
           /\ req_json rq = PyDict m
           /\ (json_compliant (PyDict m) = false ->
               snd (run fos ios t input sent) = inl ValueError))
  /\ snd (run fos ios t input sent) <> inl TypeError
  /\ snd (run fos ios t input sent) <> inl ConfigurationError.
Proof.
  intros Hin.
  pose proof (deep_agent_tools_coherent st tr jl) as Hco.
  rewrite Forall_forall in Hco. specialize (Hco t Hin).
  rewrite (run_validated fos ios t input sent Hco).
  destruct (model_validate fos ios (args_schema t) input) as [m|] eqn:Hm.
  - destruct (capability_body_post st tr jl (func t) (map snd m)) as [path ->].
    + now apply tool_func_capability.
    + now apply (validated_length fos ios t input).
    + assert (Hpay : combine (map fst (params (func t))) (map snd m) = m).
      { destruct Hco as [Hps _]. rewrite <- Hps, map_map.
        apply model_validate_keys in Hm. unfold keys in Hm.
        change (map (fun x => fst (field_param x)) (args_schema t))
          with (map (fun fld => fst (fst fld)) (args_schema t)).
        rewrite <- Hm. apply combine_fst_snd. }
      rewrite Hpay, _post_eq. cbv zeta. cbn [fst snd].
      split; [split; [discriminate|]|].
      { destruct (json_compliant (PyDict m)); [|discriminate].
        destruct (tr _) as [r|]; [|discriminate].
        destruct (is_success r); [|discriminate].
        destruct (jl (text r)); discriminate. }
      split; [split; [discriminate|]|].
      { intros H. now apply app_one_not_self in H. }
      split.
      { intros m' [= <-]. eexists. split; [reflexivity|].
        split; [reflexivity|]. now intros ->. }
      destruct (json_compliant (PyDict m)); [|split; discriminate].
      destruct (tr _) as [r|]; [|split; discriminate].
      destruct (is_success r); [|split; discriminate].
      destruct (jl (text r)); split; discriminate.
  - simpl. repeat split; try discriminate; try reflexivity.
Qed.

Lemma model_validate_ext fos ios s input input' :
  (forall n, In n (field_names s) -> lookup n input = lookup n input') ->
  model_validate fos ios s input = model_validate fos ios s input'.
Proof.
  induction s as [|[[n a] info] s IH]; simpl; intros H; [reflexivity|].
  rewrite (H n (or_introl eq_refl)), IH; [reflexivity|].
  intros n' Hn'. apply H. now right.
Qed.

(** What a tool of the agent does depends on the input through the items
    that its request model names, and on nothing else: two dicts that agree
    on every field of the model give the same run, so keys that name no
    field are ignored (no request model forbids them), and the order of
    the items does not matter. *)
Theorem tool_reads_its_fields_only st tr jl fos ios t input input' sent :
  In t (deep_agent_tools st tr jl) ->
  is_dict input -> is_dict input' ->
  (forall n, In n (field_names (args_schema t)) ->
             lookup n input = lookup n input') ->
  run fos ios t input sent = run fos ios t input' sent.
Proof.
  intros _ _ _ H. unfold run, parse_input.
  rewrite (model_validate_ext fos ios _ input input' H).
  destruct (model_validate fos ios (args_schema t) input') as [m|] eqn:Hm;
    [|reflexivity].
  apply model_validate_keys in Hm.
  replace (filter (fun kv => has_key (fst kv) input) m)
    with (filter (fun kv => has_key (fst kv) input') m); [reflexivity|].
  apply filter_ext_in. intros [k v] Hkv. simpl.
  rewrite !has_key_lookup, H; [reflexivity|].
  unfold field_names. rewrite <- Hm. unfold keys.
  change k with (fst (k, v)). now apply in_map.
Qed.

(** The run of [tool_reads_its_fields_only] on a boost, against the same
    boost with its items in the other order and a stray key. *)
Lemma tool_reads_its_fields_only_boost :
  run Example.float_of_str Example.int_of_str
      (boost_creator_tool Example.settings Example.transport_ok
                          Example.json_loads)
      [("creator_id", PyStr "c"); ("factor", PyInt 3)] []
  = run Example.float_of_str Example.int_of_str
        (boost_creator_tool Example.settings Example.transport_ok
                            Example.json_loads)
        [("junk", PyNone); ("factor", PyInt 3); ("creator_id", PyStr "c")] [].
Proof.
  apply (tool_reads_its_fields_only
           Example.settings Example.transport_ok Example.json_loads).
  - simpl. tauto.
  - unfold is_dict. simpl.
    repeat constructor; simpl; intuition discriminate.
  - unfold is_dict. simpl.
    repeat constructor; simpl; intuition discriminate.
  - intros n [<-|[<-|[]]]; reflexivity.
Defined.

Lemma model_validate_missing fos ios s n a info input :
  In (n, a, info) s -> fdefault info = None -> lookup n input = None ->
  model_validate fos ios s input = None.
Proof.
  intros Hin Hd Hl.
  induction s as [|[[n' a'] info'] s IH]; simpl; [contradiction|].
  destruct Hin as [[= -> -> ->]|Hin].
  - now rewrite Hl, Hd.
  - rewrite (IH Hin).
    now destruct (match lookup n' input with
                  | Some v => _
                  | None => _
                  end).
Qed.

(** A tool whose input lacks a field that has no default raises
    [ValidationError] and sends nothing, whatever the other items are. *)
Theorem missing_required_field_refused fos ios t n a info input sent :
  In (n, a, info) (args_schema t) ->
  fdefault info = None ->
  lookup n input = None ->
  run fos ios t input sent = (sent, inl ValidationError).
Proof.
  intros Hin Hd Hl. unfold run, parse_input.
  now rewrite (model_validate_missing fos ios _ n a info input Hin Hd Hl).
Qed.

(** The run of [missing_required_field_refused] on a boost with no
    factor. *)
Lemma missing_required_field_refused_boost :
  run Example.float_of_str Example.int_of_str
      (boost_creator_tool Example.settings Example.transport_ok
                          Example.json_loads)
      [("creator_id", PyStr "c")] []
  = ([], inl ValidationError).
Proof.
  apply (missing_required_field_refused
           Example.float_of_str Example.int_of_str _ "factor" TFloat
           (mkField None (Some float_zero) (Some float_ten)
                    "Boost factor, 0 disables, 1 no change, >1 boosts")).
  - simpl. right. left. reflexivity.
  - reflexivity.
  - reflexivity.
Defined.

(** The request model of a boost, and of a demotion, accepts an input
    exactly when [creator_id] is a string and [factor] stands for a float
    of the closed range [0.0, 10.0] (the two bounds are accepted, a NaN is
    not); the validated model then holds that string and that float, so a
    factor given as an integer reaches the engine as a float. *)
Theorem boost_model_accepts_iff fos ios s input m :
  s = BoostCreatorInput \/ s = DemoteCreatorInput ->
  (model_validate fos ios s input = Some m <->
   exists c raw f,
     lookup "creator_id" input = Some (PyStr c)
     /\ lookup "factor" input = Some raw
     /\ float_validator fos raw = Some f
     /\ SFleb float_zero f = true
     /\ SFleb f float_ten = true
     /\ m = [("creator_id", PyStr c); ("factor", PyFloat f)]).
Proof.
  intros Hs.
  assert (H : model_validate fos ios s input
              = match lookup "creator_id" input, lookup "factor" input with
                | Some (PyStr c), Some raw =>
                    match float_validator fos raw with
                    | Some f =>
                        if SFleb f float_ten && SFleb float_zero f
                        then Some [("creator_id", PyStr c);
                                   ("factor", PyFloat f)]
                        else None
                    | None => None
                    end
                | _, _ => None
                end).
  { destruct Hs as [-> | ->]; simpl;
      (destruct (lookup "creator_id" input) as [[]|];
       destruct (lookup "factor" input) as [raw|]; try reflexivity;
       unfold validate_field, within_bounds; simpl;
       destruct (float_validator fos raw) as [f|]; simpl; try reflexivity;
       destruct (SFleb f float_ten && SFleb float_zero f);
       reflexivity). }
  rewrite H. clear H. split.
  - destruct (lookup "creator_id" input) as [[| | | |c| |]|]; try discriminate.
    destruct (lookup "factor" input) as [raw|]; [|discriminate].
    destruct (float_validator fos raw) as [f|] eqn:Hf; [|discriminate].
    destruct (SFleb f float_ten) eqn:Hle; [|discriminate].
    destruct (SFleb float_zero f) eqn:Hge; [|discriminate].
    simpl. intros [= <-]. exists c, raw, f. repeat split; assumption.
  - intros [c [raw [f [-> [-> [-> [Hge [Hle ->]]]]]]]].
    now rewrite Hge, Hle.
Qed.

(** The run of [boost_model_accepts_iff] on the factor given as the
    integer 3. *)
Lemma boost_model_accepts_integer_three :
  model_validate Example.float_of_str Example.int_of_str BoostCreatorInput
                 [("creator_id", PyStr "c"); ("factor", PyInt 3)]
  = Some [("creator_id", PyStr "c"); ("factor", PyFloat float_three)].
Proof.
  apply (proj2 (boost_model_accepts_iff
                  Example.float_of_str Example.int_of_str BoostCreatorInput
                  [("creator_id", PyStr "c"); ("factor", PyInt 3)]
                  [("creator_id", PyStr "c"); ("factor", PyFloat float_three)]
                  (or_introl eq_refl))).
  exists "c", (PyInt 3), float_three. repeat split.
Defined.

Lemma map_items_forall2 f d :
  forall d',
    map_items f d = Some d' ->
    Forall2 (fun kv kv' => fst kv' = fst kv /\ f (snd kv) = Some (snd kv'))
            d d'.
Proof.
  induction d as [|[k v] d IH]; simpl; intros d' H.
  - injection H as <-. constructor.
  - destruct (f v) as [v'|] eqn:Ev; [|discriminate].
    destruct (map_items f d) as [r|]; [|discriminate].
    injection H as <-. constructor; [now split|now apply IH].
Qed.

(** When the weights model accepts an input, the input's [weights] is a
    dict, and the validated mapping has the same keys in the same order,
    each with the float that the input's value stands for; a [weights] that
    is present and is no dict is refused. *)
Theorem weights_keep_their_keys fos ios input :
  (forall m,
      model_validate fos ios SetWeightsInput input = Some m ->
      exists d d',
        lookup "weights" input = Some (PyDict d)
        /\ m = [("weights", PyDict d')]
        /\ keys d' = keys d
        /\ Forall2 (fun kv kv' =>
                      exists f,
                        float_validator fos (snd kv) = Some f
                        /\ snd kv' = PyFloat f) d d')
  /\ (forall v,
         lookup "weights" input = Some v ->
         (forall d, v <> PyDict d) ->
         model_validate fos ios SetWeightsInput input = None).
Proof.
  split.
  - intros m. simpl.
    destruct (lookup "weights" input) as [v|]; [|discriminate].
    unfold validate_field. simpl.
    destruct v; try discriminate.
    destruct (map_items _ d) as [d'|] eqn:E; simpl; [|discriminate].
    intros [= <-]. exists d, d'. split; [reflexivity|]. split; [reflexivity|].
    apply map_items_forall2 in E. unfold keys.
    induction E as [|[k v] [k' v'] d d' [Hk Hv] _ [IH1 IH2]]; simpl in *.
    + split; constructor.
    + subst k'. split; [now rewrite IH1|]. constructor; [|assumption].
      destruct (float_validator fos v) as [f|] eqn:Hf; [|discriminate].
      simpl in Hv. injection Hv as <-. exists f. split; [exact Hf|reflexivity].
  - intros v Hv Hnd. simpl. rewrite Hv. unfold validate_field. simpl.
    destruct v; try reflexivity. now elim (Hnd d).
Qed.

(** The run of [weights_keep_their_keys] on a mapping with one integer
    weight. *)
Lemma weights_keep_their_keys_integer :
  exists d d',
    lookup "weights" [("weights", PyDict [("freshness", PyInt 3)])]
    = Some (PyDict d)
    /\ [("weights", PyDict [("freshness", PyFloat float_three)])]
       = [("weights", PyDict d')]
    /\ keys d' = keys d
    /\ Forall2 (fun kv kv' =>
                  exists f,
                    float_validator Example.float_of_str (snd kv) = Some f
                    /\ snd kv' = PyFloat f) d d'.
Proof.
  apply (proj1 (weights_keep_their_keys
                  Example.float_of_str Example.int_of_str
                  [("weights", PyDict [("freshness", PyInt 3)])])).
  reflexivity.
Defined.

Lemma map_items_typed (P : pyval -> Prop) f :
  (forall v v', f v = Some v' -> P v') ->
  forall d d', map_items f d = Some d' -> Forall (fun kv => P (snd kv)) d'.
Proof.
  intros Hf. induction d as [|[k v] d IH]; simpl; intros d' H.
  - injection H as <-. constructor.
  - destruct (f v) as [v'|] eqn:Ev; [|discriminate].
    destruct (map_items f d) as [r|]; [|discriminate].
    injection H as <-. constructor; [now apply (Hf v)|now apply IH].
Qed.

Lemma validate_annot_typed fos ios a :
  forall v v', validate_annot fos ios a v = Some v' -> has_type a v'.
Proof.
  induction a as [| | |a IH]; intros v v' H; simpl in *.
  - destruct v; simpl in H; try discriminate. injection H as <-. now eexists.
  - destruct (int_validator ios v); simpl in H; [|discriminate].
    injection H as <-. now eexists.
  - destruct (float_validator fos v); simpl in H; [|discriminate].
    injection H as <-. now eexists.
  - destruct v; try discriminate.
    destruct (map_items (validate_annot fos ios a) d) as [d'|] eqn:E;
      simpl in H; [|discriminate].
    injection H as <-. exists d'. split; [reflexivity|].
    now apply (map_items_typed (has_type a) _ IH d).
Qed.

Lemma validate_field_typed fos ios a info v v' :
  validate_field fos ios a info v = Some v' -> has_type a v'.
Proof.
  unfold validate_field.
  destruct (validate_annot fos ios a v) as [w|] eqn:E; [|discriminate].
  apply validate_annot_typed in E.
  destruct w; try (now intros [= <-]).
  destruct (within_bounds info f); [now intros [= <-]|discriminate].
Qed.

Lemma arises_typed fos ios input s m :
  Forall (fun fld => forall d, fdefault (snd fld) = Some d ->
                               has_type (snd (fst fld)) d) s ->
  Forall2 (arises fos ios input) s m ->
  Forall2 typed_item s m.
Proof.
  intros Hd Ha. induction Ha as [|fld kv s m [Hk Hv] _ IH]; [constructor|].
  inversion Hd as [|? ? Hd1 Hd2]; subst.
  constructor; [|now apply IH].
  split; [assumption|].
  destruct (lookup (fst (fst fld)) input).
  - now apply validate_field_typed in Hv.
  - now apply Hd1.
Qed.

Lemma request_models_defaults_typed s :
  In s request_models ->
  Forall (fun fld => forall d, fdefault (snd fld) = Some d ->
                               has_type (snd (fst fld)) d) s.
Proof.
  simpl. intros H.
  repeat (destruct H as [<-|H];
          [repeat constructor; simpl; intros d [= <-]; now eexists|]).
  contradiction.
Qed.

(** Whatever the input was, the model that one of the eight request models
    yields holds, field by field in declaration order, a value of the type
    of the field: strings for [str], integers for [int], floats for [float]
    and a dict of floats for the weights.  So the payload a tool posts is
    well typed even when the input was not (an integer factor, a numeric
    string, a default). *)
Theorem validated_model_is_typed fos ios s input m :
  In s request_models ->
  model_validate fos ios s input = Some m ->
  Forall2 typed_item s m.
Proof.
  intros Hin Hm.
  apply (arises_typed fos ios input).
  - now apply request_models_defaults_typed.
  - now apply model_validate_arises.
Qed.

(** The run of [validated_model_is_typed] on a trending request with the
    limit given as the float 10.0. *)
Lemma validated_model_is_typed_trending :
  Forall2 typed_item TrendingContentInput
          [("category", PyStr "all"); ("limit", PyInt 10)].
Proof.
  apply (validated_model_is_typed
           Example.float_of_str Example.int_of_str TrendingContentInput
           [("limit", PyFloat float_ten)]).
  - simpl. tauto.
  - reflexivity.
Defined.

(** Each request model on its own validated values: they validate to
    themselves. *)
Lemma request_model_revalidates fos ios s input m :
  In s request_models ->
  model_validate fos ios s input = Some m ->
  model_validate fos ios s m = Some m.
Proof.
  intros Hin Hm.
  pose proof (model_validate_keys _ _ _ _ _ Hm) as Hk.
  pose proof (model_validate_arises _ _ _ _ _ Hm) as Ha.
  simpl in Hin.
  repeat (destruct Hin as [<-|Hin]); try contradiction;
    simpl in Hk; model_shape Hk;
    unfold SetWeightsInput, BoostCreatorInput, DemoteCreatorInput,
      BlockTagInput, UnblockTagInput, SearchContentInput,
      TrendingContentInput, PersonalizedFeedInput in Ha;
    repeat match goal with
           | H : Forall2 _ (_ :: _) (_ :: _) |- _ =>
               let H1 := fresh "Hitem" in
               let H2 := fresh "Hrest" in
               inversion H as [|? ? ? ? H1 H2]; subst; clear H
           | H : Forall2 _ [] [] |- _ => clear H
           end;
    simpl;
    repeat match goal with
           | H : arises _ _ _ _ _ |- _ => revalidate_item H
           end;
    reflexivity.
Qed.

Lemma tool_schema_is_request_model st tr jl t :
  In t (deep_agent_tools st tr jl) -> In (args_schema t) request_models.
Proof.
  simpl. intros H.
  repeat (destruct H as [<-|H]; [simpl; tauto|]). contradiction.
Qed.

(** Handing a tool the validated model in place of the input changes
    nothing: the same request is sent and the same result comes back.  So
    validating before the call, as a caller may do, is harmless. *)
Theorem tool_run_on_validated_model st tr jl fos ios t input m sent :
  In t (deep_agent_tools st tr jl) ->
  model_validate fos ios (args_schema t) input = Some m ->
  run fos ios t m sent = run fos ios t input sent.
Proof.
  intros Hin Hm.
  pose proof (deep_agent_tools_coherent st tr jl) as Hco.
  rewrite Forall_forall in Hco. specialize (Hco t Hin).
  rewrite !(run_validated fos ios t _ sent Hco), Hm.
  rewrite (request_model_revalidates fos ios _ input m); [reflexivity| |exact Hm].
  now apply (tool_schema_is_request_model st tr jl).
Qed.

(** The run of [tool_run_on_validated_model] on a search with the limit
    left out. *)
Lemma tool_run_on_validated_model_search :
  run Example.float_of_str Example.int_of_str
      (search_content_tool Example.settings Example.transport_ok
                           Example.json_loads)
      [("query", PyStr "cats"); ("limit", PyInt 10)] []
  = run Example.float_of_str Example.int_of_str
        (search_content_tool Example.settings Example.transport_ok
                             Example.json_loads)
        [("query", PyStr "cats")] [].
Proof.
  apply (tool_run_on_validated_model
           Example.settings Example.transport_ok Example.json_loads).
  - simpl. tauto.
  - reflexivity.
Defined.

(* ===================================================================== *)
(** * Direct calls with keyword arguments *)
(* ===================================================================== *)

Lemma bind_params_none ps kwargs :
  bind_params ps kwargs = None <->
  exists p, In (p, None) ps /\ lookup p kwargs = None.
Proof.
  induction ps as [|[p d] ps IH]; simpl.
  - split; [discriminate|]. intros [p [[] _]].
  - destruct (lookup p kwargs) as [v|] eqn:L; [|destruct d as [v|]].
    + destruct (bind_params ps kwargs) as [vs|].
      * split; [discriminate|]. intros [q [[[= -> _]|Hin] Hq]].
        -- congruence.
        -- destruct IH as [_ IH]. discriminate IH. now exists q.
      * split; [intros _|reflexivity].
        destruct IH as [IH _]. destruct (IH eq_refl) as [q [Hin Hq]].
        exists q. split; [now right|assumption].
    + destruct (bind_params ps kwargs) as [vs|].
      * split; [discriminate|]. intros [q [[E|Hin] Hq]]; [discriminate E|].
        destruct IH as [_ IH]. discriminate IH. now exists q.
      * split; [intros _|reflexivity].
        destruct IH as [IH _]. destruct (IH eq_refl) as [q [Hin Hq]].
        exists q. split; [now right|assumption].
    + split; [intros _|reflexivity].
      exists p. split; [now left|assumption].
Qed.

Lemma bind_params_bound ps kwargs :
  forall args,
    bind_params ps kwargs = Some args ->
    Forall2 (fun pd a =>
               match lookup (fst pd) kwargs with
               | Some v => a = v
               | None => snd pd = Some a
               end) ps args.
Proof.
  induction ps as [|[p d] ps IH]; simpl; intros args H.
  - injection H as <-. constructor.
  - destruct (lookup p kwargs) as [v|] eqn:L.
    + destruct (bind_params ps kwargs) as [vs|]; [|discriminate].
      injection H as <-. constructor; [simpl; now rewrite L|now apply IH].
    + destruct d as [v|]; [|discriminate].
      destruct (bind_params ps kwargs) as [vs|]; [|discriminate].
      injection H as <-. constructor; [simpl; now rewrite L|now apply IH].
Qed.

Lemma existsb_eqb_In k names :
  existsb (String.eqb k) names = true <-> In k names.
Proof.
  rewrite existsb_exists. split.
  - intros [x [Hin E]]. apply String.eqb_eq in E. now subst.
  - intros Hin. exists k. split; [assumption|apply String.eqb_refl].
Qed.

Lemma unknown_keyword names ks :
  forallb (fun k => existsb (String.eqb k) names) ks = false <->
  exists k, In k ks /\ ~ In k names.
Proof.
  induction ks as [|a ks IH]; simpl.
  - split; [discriminate|]. intros [k [[] _]].
  - rewrite andb_false_iff, IH. split.
    + intros [E|[k [Hin Hk]]].
      * exists a. split; [now left|]. intros Hin.
        apply existsb_eqb_In in Hin. congruence.
      * exists k. split; [now right|assumption].
    + intros [k [[<-|Hin] Hk]].
      * left. destruct (existsb (String.eqb a) names) eqn:E; [|reflexivity].
        apply existsb_eqb_In in E. contradiction.
      * right. now exists k.
Qed.

(** A capability function called with keyword arguments raises
    [TypeError], before anything is sent, exactly when a parameter that has
    no default gets no argument or a keyword names no parameter; otherwise
    it runs on its parameters in order, each bound to its keyword argument
    or else to the default of the [def] line (10 for [limit], ["all"] for
    [category]). *)
Theorem direct_call_binds_or_type_error st tr jl f kwargs sent :
  In f (capability_functions st tr jl) ->
  (call f kwargs sent = (sent, inl TypeError) <->
   (exists p, In (p, None) (params f) /\ lookup p kwargs = None)
   \/ (exists k, In k (keys kwargs) /\ ~ In k (map fst (params f))))
  /\ (call f kwargs sent <> (sent, inl TypeError) ->
      exists args,
        call f kwargs sent = body f args sent
        /\ Forall2 (fun pd a =>
                      match lookup (fst pd) kwargs with
                      | Some v => a = v
                      | None => snd pd = Some a
                      end) (params f) args).
Proof.
  intros Hin. unfold call.
  destruct (forallb _ (keys kwargs)) eqn:F.
  - destruct (bind_params (params f) kwargs) as [args|] eqn:B.
    + pose proof (bind_params_bound _ _ _ B) as Hb.
      assert (Hlen : List.length args = List.length (params f)).
      { symmetry. now apply (Forall2_length Hb). }
      split; [|intros _; now exists args].
      destruct (capability_body_post st tr jl f args Hin Hlen) as [path ->].
      rewrite _post_eq. simpl. split.
      * intros [= H _]. now apply app_one_not_self in H.
      * intros [H|H].
        -- apply bind_params_none in H. congruence.
        -- apply unknown_keyword in H. congruence.
    + split; [|intros H; now elim H].
      split; [intros _|reflexivity].
      left. now apply bind_params_none.
  - split; [|intros H; now elim H].
    split; [intros _|reflexivity].
    right. now apply unknown_keyword.
Qed.

(** The run of [direct_call_binds_or_type_error] on [block_tag] called
    with no argument. *)
Lemma direct_call_block_tag_no_argument :
  call (block_tag_fn Example.settings Example.transport_ok
                     Example.json_loads) [] []
  = ([], inl TypeError).
Proof.
  apply (proj1 (direct_call_binds_or_type_error
                  Example.settings Example.transport_ok Example.json_loads
                  (block_tag_fn Example.settings Example.transport_ok
                                Example.json_loads)
                  [] []
                  (or_intror (or_intror (or_intror (or_introl eq_refl)))))).
  left. exists "tag". split; [now left|reflexivity].
Defined.


(** The run of [tool_sends_nothing_iff_invalid] on a search with no
    query. *)
Lemma tool_sends_nothing_search_no_query :
  fst (run Example.float_of_str Example.int_of_str
           (search_content_tool Example.settings Example.transport_ok
                                Example.json_loads)
           [("limit", PyInt 5)] [])
  = [].
Proof.
  apply (proj1 (proj1 (proj2 (tool_sends_nothing_iff_invalid
                  Example.settings Example.transport_ok Example.json_loads
                  Example.float_of_str Example.int_of_str
                  (search_content_tool Example.settings Example.transport_ok
                                       Example.json_loads)
                  [("limit", PyInt 5)] []
                  ltac:(simpl; tauto))))).
  reflexivity.
Defined.

(* ===================================================================== *)
(** * The trending request model *)
(* ===================================================================== *)

(** The trending request model is the one model with no required field: it
    accepts an input exactly when [category] is left out or is a string and
    [limit] is left out or stands for an integer; the validated model holds
    the given category or ["all"], and the given integer or 10.  The empty
    input is therefore accepted. *)
Theorem trending_model_accepts_iff fos ios input m :
  model_validate fos ios TrendingContentInput input = Some m <->
  exists c l,
    (lookup "category" input = Some (PyStr c)
     \/ (lookup "category" input = None /\ c = "all"))
    /\ ((exists raw,
            lookup "limit" input = Some raw /\ int_validator ios raw = Some l)
        \/ (lookup "limit" input = None /\ l = 10))
    /\ m = [("category", PyStr c); ("limit", PyInt l)].
Proof.
  simpl. unfold validate_field. simpl. split.
  - destruct (lookup "category" input) as [[| | | |c| |]|] eqn:Lc;
      simpl; try discriminate;
      (destruct (lookup "limit" input) as [raw|] eqn:Ll; simpl;
       [destruct (int_validator ios raw) as [l|] eqn:Hl; simpl;
        [|discriminate]|]);
      intros [= <-].
    + exists c, l. split; [now left|]. split; [|reflexivity].
      left. now exists raw.
    + exists c, 10. split; [now left|]. split; [now right|reflexivity].
    + exists "all", l. split; [now right|]. split; [|reflexivity].
      left. now exists raw.
    + exists "all", 10. split; [now right|]. split; [now right|reflexivity].
  - intros [c [l [[Hc|[Hc ->]] [[[raw [Hl Hr]]|[Hl ->]] ->]]]];
      rewrite Hc, Hl; simpl; try rewrite Hr; reflexivity.
Qed.

(** The run of [trending_model_accepts_iff] on the empty input. *)
Lemma trending_model_accepts_empty_input :
  model_validate Example.float_of_str Example.int_of_str TrendingContentInput
                 []
  = Some [("category", PyStr "all"); ("limit", PyInt 10)].
Proof.
  apply (proj2 (trending_model_accepts_iff
                  Example.float_of_str Example.int_of_str []
                  [("category", PyStr "all"); ("limit", PyInt 10)])).
  exists "all", 10. split; [now right|]. split; [now right|reflexivity].
Defined.
